(** * Houseplant Comparison API: a shallow embedding of [main.py] and [schemas.py]

    The service is a FastAPI application over a document store.  The
    embedding follows the two source files:

    - Python values (JSON bodies, stored documents, dict and list
      operations, truthiness, slicing) are modelled by [value] and finite
      maps with string keys;
    - [schemas.py] becomes the field table [Plant], read by a model of the
      validation and JSON-schema generation that the [BaseModel] class
      provides;
    - the query dict that [list_plants] builds is a finite map of query
      entries, with the meaning the document store gives to the operators
      that occur in it;
    - the handlers of [main.py] are programs over the two operations
      imported from the [database] module, [get_documents] and
      [create_document], which are not part of the sources and stay
      uninterpreted. *)

From Stdlib Require Import ZArith QArith String Ascii.
From stdpp Require Import gmap strings list fin_maps.

Set Warnings "-register-all".
Local Open Scope string_scope.

(** ** Python values *)

(** A Python float: a finite double is a (dyadic) rational; the model keeps
    the exact rational and the three special values, and identifies -0.0
    with 0.0. *)
Inductive pyfloat :=
| Finite (q : Q)
| PosInf
| NegInf
| NaN.

(** The values that occur in request bodies, stored documents and
    responses: the JSON types, and the two BSON types the document store
    adds, object identifiers (by their hexadecimal form) and datetimes (by
    their ISO form). *)
Inductive value :=
| VNone
| VBool (b : bool)
| VInt (z : Z)
| VFloat (f : pyfloat)
| VStr (s : string)
| VList (l : list value)
| VDict (d : gmap string value)
| VObjectId (hex : string)
| VDatetime (iso : string).

(** A Python dict with string keys: a stored document, a parsed JSON
    object, a validated model instance. *)
Abbreviation pydict := (gmap string value).

Definition is_str (o : option value) : bool :=
  match o with
  | Some (VStr _) => true
  | _ => false
  end.

Definition float_is_zero (f : pyfloat) : bool :=
  match f with
  | Finite q => Qeq_bool q 0
  | _ => false
  end.

(** [bool(v)], the test of [if v:]. *)
Definition py_truthy (v : value) : bool :=
  match v with
  | VNone => false
  | VBool b => b
  | VInt z => negb (Z.eqb z 0)
  | VFloat f => negb (float_is_zero f)
  | VStr s => negb (String.eqb s "")
  | VList l => match l with [] => false | _ => true end
  | VDict d => negb (bool_decide (d = ∅))
  | VObjectId _ => true
  | VDatetime _ => true
  end.

(** [d.get(k)]: the value at [k], or [None]. *)
Definition dict_get (d : pydict) (k : string) : value :=
  default VNone (d !! k).

(** [l[:stop]] for an integer [stop]: a negative [stop] counts from the
    end, and both ends are clamped, so that no index is out of range. *)
Definition py_slice_to {A : Type} (l : list A) (stop : Z) : list A :=
  if (stop <? 0)%Z
  then take (Z.to_nat (Z.of_nat (length l) + stop)) l
  else take (Z.to_nat stop) l.

(** ASCII letters. *)
Definition is_ascii (c : ascii) : bool := (nat_of_ascii c <? 128)%nat.

Definition is_upper (c : ascii) : bool :=
  ((65 <=? nat_of_ascii c) && (nat_of_ascii c <=? 90))%nat.

Definition is_lower (c : ascii) : bool :=
  ((97 <=? nat_of_ascii c) && (nat_of_ascii c <=? 122))%nat.

Definition ascii_lower (c : ascii) : ascii :=
  if is_upper c then ascii_of_nat (nat_of_ascii c + 32) else c.

Definition ascii_upper (c : ascii) : ascii :=
  if is_lower c then ascii_of_nat (nat_of_ascii c - 32) else c.

Definition chars (s : string) : list ascii := list_ascii_of_string s.

Definition lower (s : list ascii) : list ascii := map ascii_lower s.

Definition ascii_only (s : string) : bool := forallb is_ascii (chars s).

(** [s.title()] on ASCII text: a letter is upper-cased after a character
    that is not a letter and lower-cased after a letter. *)
Fixpoint title_from (after_letter : bool) (s : string) : string :=
  match s with
  | EmptyString => EmptyString
  | String c s' =>
      let letter := is_upper c || is_lower c in
      String (if after_letter then ascii_lower c else ascii_upper c)
             (title_from letter s')
  end.

Definition py_title (s : string) : string := title_from false s.

Fixpoint replace_char (a b : ascii) (s : string) : string :=
  match s with
  | EmptyString => EmptyString
  | String c s' =>
      String (if Ascii.eqb c a then b else c) (replace_char a b s')
  end.

(** ** The [BaseModel] machinery used by [schemas.py]

    A model class is a table of fields, each with its annotation, its
    default ([None] of the option for a required field, written [...] in
    the source), its numeric lower bound [ge] and its description.
    Validation and JSON-schema generation read that table. *)

Inductive ftype :=
| TStr
| TBool
| TFloat
| THttpUrl
| TLiteral (choices : list string)
| TList (item : ftype)
| TOptional (inner : ftype).

Record FieldInfo := Field {
  annotation : ftype;
  default_value : option value;
  ge : option Z;
  description : string
}.

Record ModelClass := {
  model_name : string;
  docstring : string;
  model_fields : list (string * FieldInfo)
}.

(** One validation error: the field it is located at and its type. *)
Definition ErrorDetail : Type := string * string.

Definition ge_ok (bound : option Z) (f : pyfloat) : bool :=
  match bound with
  | None => true
  | Some g =>
      match f with
      | Finite q => Qle_bool (inject_Z g) q
      | PosInf => true
      | NegInf => false
      | NaN => false
      end
  end.

(** The double nearest to an integer, ties going to the even mantissa: an
    integer of at most 53 bits is a double; a longer one keeps its 53
    leading bits, rounded. *)
Definition round_to_double (z : Z) : Z :=
  let a := Z.abs z in
  let e := (Z.log2 a - 52)%Z in
  if (e <=? 0)%Z then z
  else
    let q := (a / 2 ^ e)%Z in
    let r := (a mod 2 ^ e)%Z in
    let half := (2 ^ (e - 1))%Z in
    let q' := if (half <? r)%Z || ((r =? half)%Z && Z.odd q)
              then (q + 1)%Z else q in
    (Z.sgn z * (q' * 2 ^ e))%Z.

(** [float(z)] for an integer [z]: the nearest double, and no float when
    that is beyond the range of the doubles. *)
Definition int_as_float (z : Z) : option pyfloat :=
  let r := round_to_double z in
  if (Z.abs r <? 2 ^ 1024)%Z then Some (Finite (inject_Z r)) else None.

(** The kind of the error for an input that is no bool, and for one that is
    no float: text and numbers fail to parse, other inputs are of the wrong
    type. *)
Definition bool_error (v : value) : string :=
  match v with
  | VStr _ | VInt _ | VFloat _ => "bool_parsing"
  | _ => "bool_type"
  end.

Definition float_error (v : value) : string :=
  match v with
  | VStr _ => "float_parsing"
  | _ => "float_type"
  end.

Section Validation.

(** The conversions of the validation library's lax mode that depend on
    parsing text are parameters: a non-bool input taken as a bool, a
    non-numeric input taken as a float, and the parsing of a URL. *)
Variable lax_bool : value -> option bool.
Variable lax_float : value -> option pyfloat.
Variable http_url : string -> option string.

Definition as_float (v : value) : option pyfloat :=
  match v with
  | VFloat f => Some f
  | VInt z => int_as_float z
  | _ => lax_float v
  end.

(** Validation of one input against an annotation: the validated value,
    or the types of the errors.  A scalar input gives one error; a list
    gives the errors of all its items that fail, in order. *)
Fixpoint validate_type (bound : option Z) (t : ftype) (v : value)
  : list string + value :=
  match t with
  | TStr =>
      match v with
      | VStr _ => inr v
      | _ => inl ["string_type"]
      end
  | TBool =>
      match v with
      | VBool _ => inr v
      | _ =>
          match lax_bool v with
          | Some b => inr (VBool b)
          | None => inl [bool_error v]
          end
      end
  | TFloat =>
      match as_float v with
      | None => inl [float_error v]
      | Some f =>
          if ge_ok bound f then inr (VFloat f) else inl ["greater_than_equal"]
      end
  | THttpUrl =>
      match v with
      | VStr s =>
          match http_url s with
          | Some u => inr (VStr u)
          | None => inl ["url_parsing"]
          end
      | _ => inl ["url_type"]
      end
  | TLiteral choices =>
      match v with
      | VStr s =>
          if bool_decide (s ∈ choices) then inr v else inl ["literal_error"]
      | _ => inl ["literal_error"]
      end
  | TList item =>
      match v with
      | VList l =>
          (fix items (l : list value) : list string + value :=
             match l with
             | [] => inr (VList [])
             | x :: l' =>
                 match validate_type None item x, items l' with
                 | inr x', inr (VList r) => inr (VList (x' :: r))
                 | inl e, inl e' => inl (e ++ e')%list
                 | inl e, inr _ => inl e
                 | inr _, inl e' => inl e'
                 | inr _, inr _ => inl ["list_type"]
                 end
             end) l
      | _ => inl ["list_type"]
      end
  | TOptional inner =>
      match v with
      | VNone => inr VNone
      | _ => validate_type bound inner v
      end
  end.

(** A field of the input dict: absent, it takes its default or is
    reported missing; present, it is validated, and its errors are located
    at the field. *)
Definition validate_field (data : pydict) (name : string) (fi : FieldInfo)
  : list ErrorDetail + value :=
  match data !! name with
  | None =>
      match default_value fi with
      | Some dv => inr dv
      | None => inl [(name, "missing")]
      end
  | Some v =>
      match validate_type (ge fi) (annotation fi) v with
      | inl es => inl (map (pair name) es)
      | inr v' => inr v'
      end
  end.

(** All fields are validated and all errors collected, in the order of
    the class body; keys of the input that name no field are ignored. *)
Fixpoint validate_fields (data : pydict) (fields : list (string * FieldInfo))
  : list ErrorDetail * pydict :=
  match fields with
  | [] => ([], ∅)
  | (name, fi) :: rest =>
      let '(errs, inst) := validate_fields data rest in
      match validate_field data name fi with
      | inl es => ((es ++ errs)%list, inst)
      | inr v => (errs, <[name := v]> inst)
      end
  end.

(** [Model.model_validate(obj)] for a parsed JSON input: the instance, as
    the dict of its fields, or the list of errors. *)
Definition model_validate (m : ModelClass) (obj : value)
  : list ErrorDetail + pydict :=
  match obj with
  | VDict data =>
      match validate_fields data (model_fields m) with
      | ([], inst) => inr inst
      | (errs, _) => inl errs
      end
  | _ => inl [("", "model_attributes_type")]
  end.

End Validation.

(** [Model.model_json_schema()]. *)
Definition null_schema : pydict := {[ "type" := VStr "null" ]}.

Fixpoint type_schema (bound : option Z) (t : ftype) : pydict :=
  match t with
  | TStr => {[ "type" := VStr "string" ]}
  | TBool => {[ "type" := VStr "boolean" ]}
  | TFloat =>
      match bound with
      | Some g => <[ "minimum" := VInt g ]> {[ "type" := VStr "number" ]}
      | None => {[ "type" := VStr "number" ]}
      end
  | THttpUrl =>
      list_to_map [("format", VStr "uri"); ("maxLength", VInt 2083);
                   ("minLength", VInt 1); ("type", VStr "string")]
  | TLiteral choices =>
      list_to_map [("enum", VList (VStr <$> choices)); ("type", VStr "string")]
  | TList item =>
      list_to_map [("items", VDict (type_schema None item));
                   ("type", VStr "array")]
  | TOptional inner =>
      {[ "anyOf" := VList [VDict (type_schema bound inner); VDict null_schema] ]}
  end.

Definition field_title (name : string) : string :=
  replace_char "_" " " (py_title name).

Definition field_schema (name : string) (fi : FieldInfo) : pydict :=
  let s := type_schema (ge fi) (annotation fi) in
  let s := match default_value fi with
           | Some dv => <[ "default" := dv ]> s
           | None => s
           end in
  <[ "title" := VStr (field_title name) ]>
    (<[ "description" := VStr (description fi) ]> s).

Definition is_required (f : string * FieldInfo) : bool :=
  match default_value f.2 with
  | None => true
  | Some _ => false
  end.

Definition model_json_schema (m : ModelClass) : pydict :=
  list_to_map
    [("title", VStr (model_name m));
     ("type", VStr "object");
     ("description", VStr (docstring m));
     ("properties",
       VDict (list_to_map
                (map (fun f => (f.1, VDict (field_schema f.1 f.2)))
                     (model_fields m))));
     ("required", VList (map (fun f => VStr f.1)
                             (filter (fun f => is_required f = true)
                                     (model_fields m))))].

(** ** [schemas.py] *)

Definition LightLevel : ftype := TLiteral ["low"; "medium"; "bright"].
Definition CareLevel : ftype := TLiteral ["easy"; "moderate"; "advanced"].
Definition WaterNeed : ftype := TLiteral ["low"; "moderate"; "high"].
Definition SizeClass : ftype := TLiteral ["small"; "medium"; "large"].

Definition newline : string := String (ascii_of_nat 10) EmptyString.
Definition dquote : string := String (ascii_of_nat 34) EmptyString.

Definition Plant : ModelClass := {|
  model_name := "Plant";
  docstring :=
    "Houseplants collection schema" +:+ newline +:+
    "Collection name: " +:+ dquote +:+ "plant" +:+ dquote;
  model_fields := [
    ("name", Field TStr None None "Common name");
    ("scientific_name", Field (TOptional TStr) (Some VNone) None "Botanical name");
    ("description",
      Field (TOptional TStr) (Some VNone) None "Short description and care notes");
    ("image_url", Field (TOptional THttpUrl) (Some VNone) None "Image URL");
    ("light", Field LightLevel None None "Preferred light level");
    ("water", Field WaterNeed None None "Watering needs");
    ("care_level", Field CareLevel None None "Overall difficulty");
    ("pet_friendly", Field TBool (Some (VBool false)) None "Safe for pets");
    ("size",
      Field SizeClass (Some (VStr "medium")) None "Typical mature size indoors");
    ("humidity", Field (TOptional TStr) (Some VNone) None "Humidity preference");
    ("placement",
      Field (TOptional TStr) (Some VNone) None "Best placement e.g., north window");
    ("growth_rate",
      Field (TOptional TStr) (Some VNone) None "Slow / Moderate / Fast");
    ("ideal_temp_min_c",
      Field (TOptional TFloat) (Some VNone) None "Min ideal temp in °C");
    ("ideal_temp_max_c",
      Field (TOptional TFloat) (Some VNone) None "Max ideal temp in °C");
    ("price",
      Field (TOptional TFloat) (Some VNone) (Some 0%Z) "Typical price in dollars");
    ("tags",
      Field (TOptional (TList TStr)) (Some VNone) None "Extra labels for filtering")
  ]
|}.

(** ** The query dict and its meaning in the document store

    [list_plants] builds a dict whose keys are field names, mapped to a
    literal or to an operator dict, and the key [$or], mapped to a list of
    one-field dicts.  Only the shapes the handler builds are modelled. *)

Inductive qlit :=
| LStr (s : string)
| LBool (b : bool).

Inductive cond :=
| CEq (x : qlit)                        (* {field: x} *)
| CRegex (pattern options : string)     (* {field: {"$regex": p, "$options": o}} *)
| CIn (xs : list qlit).                 (* {field: {"$in": xs}} *)

Inductive entry :=
| OnField (c : cond)
| Or (alternatives : list (string * cond)).

Abbreviation querydict := (gmap string entry).

(** A regular expression of the modelled fragment: a sequence of literal
    characters and of [.], which stands for any character but a newline. *)
Inductive rx_item :=
| RxChar (c : ascii)
| RxAny.

(** The characters with a special meaning in a pattern. *)
Definition is_meta (c : ascii) : bool :=
  existsb (Ascii.eqb c) (chars "\^$.[]|()?*+{}").

(** A pattern is in the fragment when it is ASCII text whose only special
    character is [.]; any other pattern is left without a meaning here. *)
Fixpoint compile_pattern (p : list ascii) : option (list rx_item) :=
  match p with
  | [] => Some []
  | c :: p' =>
      if Ascii.eqb c "."
      then cons RxAny <$> compile_pattern p'
      else if is_meta c || negb (is_ascii c)
      then None
      else cons (RxChar c) <$> compile_pattern p'
  end.

Definition item_matches (ignore_case : bool) (it : rx_item) (c : ascii) : bool :=
  match it with
  | RxChar x =>
      if ignore_case then Ascii.eqb (ascii_lower x) (ascii_lower c)
      else Ascii.eqb x c
  | RxAny => negb (Ascii.eqb c (ascii_of_nat 10))
  end.

(** The items match a prefix of the subject. *)
Fixpoint match_here (ignore_case : bool) (items : list rx_item) (s : list ascii)
  : bool :=
  match items, s with
  | [], _ => true
  | _ :: _, [] => false
  | it :: items', c :: s' =>
      item_matches ignore_case it c && match_here ignore_case items' s'
  end.

(** An unanchored search: the items match at some position. *)
Fixpoint search (ignore_case : bool) (items : list rx_item) (s : list ascii)
  : bool :=
  match_here ignore_case items s
  || match s with
     | [] => false
     | _ :: s' => search ignore_case items s'
     end.

(** [{"$regex": pattern, "$options": options}] on an ASCII subject; the
    options modelled are none and [i]. *)
Definition regex_search (pattern options subject : string) : option bool :=
  items ← compile_pattern (chars pattern);
  ignore_case ← (if String.eqb options "i" then Some true
                 else if String.eqb options "" then Some false
                 else None);
  if ascii_only subject
  then Some (search ignore_case items (chars subject))
  else None.

Definition lit_eq (x : qlit) (v : value) : bool :=
  match x, v with
  | LStr s, VStr s' => String.eqb s s'
  | LBool b, VBool b' => Bool.eqb b b'
  | _, _ => false
  end.

(** Equality with a literal: the field holds the literal, or an array with
    the literal among its elements; an absent field does not match. *)
Definition eq_matches (x : qlit) (fv : option value) : bool :=
  match fv with
  | None => false
  | Some (VList l) => existsb (lit_eq x) l
  | Some v => lit_eq x v
  end.

(** A pattern applies to a string field, or to the string elements of an
    array field. *)
Fixpoint any_regex (pattern options : string) (l : list value) : option bool :=
  match l with
  | [] => Some false
  | VStr s :: l' =>
      b ← regex_search pattern options s;
      r ← any_regex pattern options l';
      Some (b || r)
  | _ :: l' => any_regex pattern options l'
  end.

Definition cond_matches (c : cond) (fv : option value) : option bool :=
  match c with
  | CEq x => Some (eq_matches x fv)
  | CIn xs => Some (existsb (fun x => eq_matches x fv) xs)
  | CRegex pattern options =>
      match fv with
      | Some (VStr s) => regex_search pattern options s
      | Some (VList l) => any_regex pattern options l
      | _ => compile_pattern (chars pattern) ≫= fun _ => Some false
      end
  end.

Fixpoint any_alternative (alts : list (string * cond)) (d : pydict)
  : option bool :=
  match alts with
  | [] => Some false
  | (field, c) :: alts' =>
      b ← cond_matches c (d !! field);
      r ← any_alternative alts' d;
      Some (b || r)
  end.

Definition entry_matches (key : string) (e : entry) (d : pydict) : option bool :=
  match e with
  | OnField c => cond_matches c (d !! key)
  | Or alts => if String.eqb key "$or" then any_alternative alts d else None
  end.

Definition both (x acc : option bool) : option bool :=
  b ← x; r ← acc; Some (b && r).

(** A document matches a query dict when it matches every entry. *)
Definition filter_matches (filt : querydict) (d : pydict) : option bool :=
  foldr (fun ke acc => both (entry_matches ke.1 ke.2 d) acc)
        (Some true) (map_to_list filt).

(** ** [main.py] *)

(** The module-level handle [db] of the [database] module: [None] when no
    datastore is configured. *)
Record Database := { db_name : string }.

(** Exceptions that leave a handler, and the status they are answered
    with. *)
Inductive exn :=
| HTTPException (status_code : Z) (detail : string)
| RequestValidationError (errors : list ErrorDetail).

Definition status_of (e : exn) : Z :=
  match e with
  | HTTPException status_code _ => status_code
  | RequestValidationError _ => 422
  end.

(** A handler is a program over the two datastore operations of the
    [database] module. *)
Inductive prog (A : Type) : Type :=
| Return (a : A)
| Raise (e : exn)
| GetDocuments (collection_name : string) (filt : querydict) (limit : Z)
               (k : list pydict -> prog A)
| CreateDocument (collection_name : string) (data : pydict)
                 (k : string -> prog A).

Arguments Return {A} a.
Arguments Raise {A} e.
Arguments GetDocuments {A} collection_name filt limit k.
Arguments CreateDocument {A} collection_name data k.

(** The program calls [create_document] on some run. *)
Inductive calls_create_document {A : Type} : prog A -> Prop :=
| calls_here collection_name data k :
    calls_create_document (CreateDocument collection_name data k)
| calls_after_get collection_name filt limit k docs :
    calls_create_document (k docs) ->
    calls_create_document (GetDocuments collection_name filt limit k)
| calls_after_create collection_name data k plant_id :
    calls_create_document (k plant_id) ->
    calls_create_document (CreateDocument collection_name data k).

Definition read_root : pydict :=
  {[ "message" := VStr "Houseplant Comparison Backend is running" ]}.

Definition get_schema : pydict :=
  {[ "plant" := VDict (model_json_schema Plant) ]}.

Definition seed_plant (name scientific_name description image_url
                       light water care_level : string) (pet_friendly : bool)
                      (size : string) (tags : list string) : pydict :=
  list_to_map
    [("name", VStr name);
     ("scientific_name", VStr scientific_name);
     ("description", VStr description);
     ("image_url", VStr image_url);
     ("light", VStr light);
     ("water", VStr water);
     ("care_level", VStr care_level);
     ("pet_friendly", VBool pet_friendly);
     ("size", VStr size);
     ("tags", VList (VStr <$> tags))].

Definition _seed_plants : list pydict := [
  seed_plant "Monstera Deliciosa" "Monstera deliciosa"
    "Iconic split leaves, fast grower and forgiving."
    "https://images.unsplash.com/photo-1519681393784-d120267933ba?q=80&w=1200&auto=format&fit=crop"
    "bright" "moderate" "easy" false "large" ["statement"; "fast-growing"];
  seed_plant "Snake Plant" "Sansevieria trifasciata"
    "Thrives on neglect, great for low light."
    "https://images.unsplash.com/photo-1587300003388-59208cc962cb?q=80&w=1200&auto=format&fit=crop"
    "low" "low" "easy" false "medium" ["air-purifier"; "beginner"];
  seed_plant "ZZ Plant" "Zamioculcas zamiifolia"
    "Glossy leaves, tolerates low light and infrequent watering."
    "https://images.unsplash.com/photo-1620916566398-579615a6df65?q=80&w=1200&auto=format&fit=crop"
    "low" "low" "easy" false "medium" ["hardy"; "office"];
  seed_plant "Pothos" "Epipremnum aureum"
    "Vining plant that adapts to many conditions."
    "https://images.unsplash.com/photo-1601482256584-5f934a95a204?q=80&w=1200&auto=format&fit=crop"
    "medium" "moderate" "easy" false "medium" ["trailing"; "versatile"];
  seed_plant "Parlor Palm" "Chamaedorea elegans"
    "Pet-friendly palm that tolerates low light."
    "https://images.unsplash.com/photo-1501004318641-b39e6451bec6?q=80&w=1200&auto=format&fit=crop"
    "low" "moderate" "moderate" true "medium" ["pet-safe"; "palm"]
].

(** [if s:] for an optional string parameter: the string when it is given
    and not empty. *)
Definition given (s : option string) : option string :=
  match s with
  | Some EmptyString => None
  | _ => s
  end.

(** The query dict of [list_plants] (the statements from [filt = {}] to
    the [tag] test). *)
Definition build_filter (q light water care_level : option string)
                        (pet_friendly : option bool)
                        (size tag : option string) : querydict :=
  let filt : querydict := ∅ in
  let filt :=
    match given q with
    | Some q =>
        <[ "$or" := Or [("name", CRegex q "i");
                        ("scientific_name", CRegex q "i");
                        ("description", CRegex q "i")] ]> filt
    | None => filt
    end in
  let filt :=
    match given light with
    | Some light => <[ "light" := OnField (CEq (LStr light)) ]> filt
    | None => filt
    end in
  let filt :=
    match given water with
    | Some water => <[ "water" := OnField (CEq (LStr water)) ]> filt
    | None => filt
    end in
  let filt :=
    match given care_level with
    | Some care_level =>
        <[ "care_level" := OnField (CEq (LStr care_level)) ]> filt
    | None => filt
    end in
  let filt :=
    match pet_friendly with
    | Some pet_friendly =>
        <[ "pet_friendly" := OnField (CEq (LBool pet_friendly)) ]> filt
    | None => filt
    end in
  let filt :=
    match given size with
    | Some size => <[ "size" := OnField (CEq (LStr size)) ]> filt
    | None => filt
    end in
  let filt :=
    match given tag with
    | Some tag => <[ "tags" := OnField (CIn [LStr tag]) ]> filt
    | None => filt
    end in
  filt.

Definition default_limit : Z := 50.

Section Handlers.

(** [str(v)], Python's rendering of a value as text. *)
Variable py_str : value -> string.

Variable lax_bool : value -> option bool.
Variable lax_float : value -> option pyfloat.
Variable http_url : string -> option string.

(** [if d.get(k): d[k] = str(d[k])]. *)
Definition str_if_truthy (k : string) (d : pydict) : pydict :=
  if py_truthy (dict_get d k)
  then <[ k := VStr (py_str (dict_get d k)) ]> d
  else d.

(** The body of the loop over the documents found. *)
Definition render_doc (d : pydict) : pydict :=
  let d := <[ "_id" := VStr (py_str (dict_get d "_id")) ]> d in
  let d := str_if_truthy "created_at" d in
  let d := str_if_truthy "updated_at" d in
  d.

Definition list_plants (db : option Database)
                       (q light water care_level : option string)
                       (pet_friendly : option bool)
                       (size tag : option string)
                       (limit : Z) : prog (list pydict) :=
  match db with
  | None => Return (py_slice_to _seed_plants limit)
  | Some _ =>
      let filt := build_filter q light water care_level pet_friendly size tag in
      GetDocuments "plant" filt limit
                   (fun docs => Return (map render_doc docs))
  end.

Definition create_plant (db : option Database) (plant : pydict)
  : prog pydict :=
  match db with
  | None => Raise (HTTPException 503 "Database not configured")
  | Some _ =>
      CreateDocument "plant" plant
                     (fun plant_id => Return {[ "id" := VStr plant_id ]})
  end.

(** The route [POST /plants]: the framework validates the body against
    the annotation of the handler's parameter, answers a body that fails
    with the validation error, and only then calls the handler. *)
Definition post_plants (db : option Database) (body : value) : prog pydict :=
  match model_validate lax_bool lax_float http_url Plant body with
  | inl errs => Raise (RequestValidationError errs)
  | inr plant => create_plant db plant
  end.

End Handlers.

(** ** Running a handler against a datastore

    The datastore is any state with an implementation of the two
    operations, each of which may fail; an exception that no handler
    catches is answered with status 500. *)

Inductive response (A : Type) : Type :=
| Ok (a : A)
| Failed (status : Z).

Arguments Ok {A} a.
Arguments Failed {A} status.

Section Run.

Context {Store : Type}.
Variable get_documents :
  string -> querydict -> Z -> Store -> option (list pydict) * Store.
Variable create_document :
  string -> pydict -> Store -> option string * Store.

Fixpoint run {A : Type} (p : prog A) (st : Store) : response A * Store :=
  match p with
  | Return a => (Ok a, st)
  | Raise e => (Failed (status_of e), st)
  | GetDocuments collection_name filt limit k =>
      match get_documents collection_name filt limit st with
      | (Some docs, st') => run (k docs) st'
      | (None, st') => (Failed 500, st')
      end
  | CreateDocument collection_name data k =>
      match create_document collection_name data st with
      | (Some plant_id, st') => run (k plant_id) st'
      | (None, st') => (Failed 500, st')
      end
  end.

End Run.

(** ** Instances of the parameters, for closed examples

    The strict instance of the lax conversions converts nothing, and takes
    a URL as it is written; [example_str] is [str] on the values that have
    a canonical text. *)

Definition strict_bool : value -> option bool := fun _ => None.
Definition strict_float : value -> option pyfloat := fun _ => None.
Definition url_as_written : string -> option string := Some.

Definition example_str (v : value) : string :=
  match v with
  | VNone => "None"
  | VBool true => "True"
  | VBool false => "False"
  | VStr s => s
  | VObjectId hex => hex
  | VDatetime iso => iso
  | _ => ""
  end.

(** A datastore that holds a fixed list of documents and answers every
    query with all of them. *)
Definition fixed_get_documents (docs : list pydict)
  (collection_name : string) (filt : querydict) (limit : Z) (st : unit)
  : option (list pydict) * unit :=
  (Some docs, st).

Definition no_create_document (collection_name : string) (data : pydict)
  (st : unit) : option string * unit :=
  (None, st).

(** ** Reading a record *)

Definition name_of (d : pydict) : option value := d !! "name".

Definition has_light (l : string) (d : pydict) : bool :=
  match d !! "light" with
  | Some (VStr s) => String.eqb s l
  | _ => false
  end.

Definition is_timestamp (o : option value) : bool :=
  match o with
  | Some (VDatetime _) => true
  | _ => false
  end.

(** What the loop of [list_plants] leaves at a timestamp key: the text of
    a value that is true in a test, the value itself otherwise, and no key
    where there was none. *)
Definition rendered_at (py_str : value -> string) (key : string)
                       (d d' : pydict) : Prop :=
  match d !! key with
  | Some v =>
      d' !! key = Some (if py_truthy v then VStr (py_str v) else v)
  | None => d' !! key = None
  end.

(** A stored document with an object identifier and both timestamps. *)
Definition stored_fern : pydict :=
  list_to_map
    [("_id", VObjectId "65f1c0ffee0123456789abcd");
     ("name", VStr "Boston Fern");
     ("light", VStr "medium");
     ("created_at", VDatetime "2024-03-13 10:15:00.250000");
     ("updated_at", VDatetime "2024-03-13 10:15:00.250000")].

(** What [list_plants] does to one document found: the identifier is the
    text of the stored one (of [None] when there is none), a timestamp is
    the text of the stored one, and every other field is as it was
    stored. *)
Definition rendered (py_str : value -> string) (d d' : pydict) : Prop :=
  d' !! "_id" = Some (VStr (py_str (dict_get d "_id")))
  /\ is_str (d' !! "_id") = true
  /\ rendered_at py_str "created_at" d d'
  /\ rendered_at py_str "updated_at" d d'
  /\ implb (is_timestamp (d !! "created_at")) (is_str (d' !! "created_at")) = true
  /\ implb (is_timestamp (d !! "updated_at")) (is_str (d' !! "updated_at")) = true
  /\ (forall key : string,
        key <> "_id" -> key <> "created_at" -> key <> "updated_at" ->
        d' !! key = d !! key).

(** ** The invariant of a Plant record *)

Definition non_negative (f : pyfloat) : Prop :=
  match f with
  | Finite q => (0 <= q)%Q
  | PosInf => True
  | NegInf => False
  | NaN => False
  end.



(** Bodies that break the schema: a body that is no JSON object; an object
    without a field that has no default, such as [name]; a value that is not
    one of the literals at a field whose annotation is a [Literal]; a
    negative number at [price]. *)
Inductive fails_schema : value -> Prop :=
| fails_not_an_object (body : value) :
    (forall data, body <> VDict data) ->
    fails_schema body
| fails_missing_required (data : pydict) (key : string) (fi : FieldInfo) :
    (key, fi) ∈ model_fields Plant ->
    default_value fi = None ->
    data !! key = None ->
    fails_schema (VDict data)
| fails_outside_enum (data : pydict) (key : string) (fi : FieldInfo)
                     (choices : list string) (v : value) :
    (key, fi) ∈ model_fields Plant ->
    annotation fi = TLiteral choices ->
    data !! key = Some v ->
    (forall s, v = VStr s -> s ∉ choices) ->
    fails_schema (VDict data)
| fails_negative_price (data : pydict) (q : Q) :
    data !! "price" = Some (VFloat (Finite q)) ->
    (q < 0)%Q ->
    fails_schema (VDict data)
| fails_negative_int_price (data : pydict) (z : Z) :
    data !! "price" = Some (VInt z) ->
    (z < 0)%Z ->
    fails_schema (VDict data).

(** A body that passes validation. *)
Definition fern_body : value :=
  VDict (list_to_map
           [("name", VStr "Boston Fern");
            ("light", VStr "medium");
            ("water", VStr "high");
            ("care_level", VStr "moderate");
            ("price", VFloat (Finite (25 # 2)));
            ("tags", VList [VStr "fern"])]).

(** The record that validation makes of [fern_body]. *)
Definition fern_plant : pydict :=
  list_to_map
    [("name", VStr "Boston Fern");
     ("scientific_name", VNone);
     ("description", VNone);
     ("image_url", VNone);
     ("light", VStr "medium");
     ("water", VStr "high");
     ("care_level", VStr "moderate");
     ("pet_friendly", VBool false);
     ("size", VStr "medium");
     ("humidity", VNone);
     ("placement", VNone);
     ("growth_rate", VNone);
     ("ideal_temp_min_c", VNone);
     ("ideal_temp_max_c", VNone);
     ("price", VFloat (Finite (25 # 2)));
     ("tags", VList [VStr "fern"])].

(** ** The filter contract

    [spec_matches] follows the words of the specification: every supplied
    criterion holds of the record, the free-text criterion being a
    case-insensitive substring of the name, the scientific name or the
    description.  [code_matches] is what the query dict of [list_plants]
    asks of a record: only the criteria that pass the test [if x:] count,
    and the free-text criterion is a pattern, in which [.] stands for any
    character but a newline, that some stretch of one of those three fields
    agrees with, character by character and without regard to case. *)


Definition text_fields : list string :=
  ["name"; "scientific_name"; "description"].


(** A character of a text agrees with a character of a pattern. *)
Definition char_agrees (p c : ascii) : Prop :=
  if Ascii.eqb p "." then c <> ascii_of_nat 10
  else ascii_lower p = ascii_lower c.

(** Some stretch of the text agrees with the pattern. *)
Definition found_in (q s : string) : Prop :=
  exists pre mid post : list ascii,
    chars s = (pre ++ mid ++ post)%list /\ Forall2 char_agrees (chars q) mid.

Definition pattern_text (q : string) (d : pydict) : Prop :=
  exists field s,
    field ∈ text_fields /\ d !! field = Some (VStr s) /\ found_in q s.

(** The same in the terms of the store: the compiled pattern is found by
    the search. *)
Definition regex_text (q : string) (d : pydict) : Prop :=
  exists items field s,
    compile_pattern (chars q) = Some items
    /\ field ∈ text_fields /\ d !! field = Some (VStr s)
    /\ search true items (chars s) = true.

Definition item_of (c : ascii) : rx_item :=
  if Ascii.eqb c "." then RxAny else RxChar c.

Definition has_tag (t : string) (d : pydict) : Prop :=
  exists l, d !! "tags" = Some (VList l) /\ VStr t ∈ l.

Definition supplied {A : Type} (o : option A) (P : A -> Prop) : Prop :=
  match o with
  | Some a => P a
  | None => True
  end.

Definition criteria (text : string -> pydict -> Prop)
                    (q light water care_level : option string)
                    (pet_friendly : option bool)
                    (size tag : option string) (d : pydict) : Prop :=
  supplied q (fun q => text q d)
  /\ supplied light (fun x => d !! "light" = Some (VStr x))
  /\ supplied water (fun x => d !! "water" = Some (VStr x))
  /\ supplied care_level (fun x => d !! "care_level" = Some (VStr x))
  /\ supplied pet_friendly (fun b => d !! "pet_friendly" = Some (VBool b))
  /\ supplied size (fun x => d !! "size" = Some (VStr x))
  /\ supplied tag (fun t => has_tag t d).


Definition code_matches (q light water care_level : option string)
                        (pet_friendly : option bool)
                        (size tag : option string) (d : pydict) : Prop :=
  criteria pattern_text (given q) (given light) (given water)
           (given care_level) pet_friendly (given size) (given tag) d.

(** The shape of a stored Plant record, as far as the filters read it:
    ASCII text at the three text fields (the two optional ones may be
    absent or [None]), a string at each enum field, a bool at
    [pet_friendly], and no tags or a list of them. *)
Definition text_or_none (o : option value) : bool :=
  match o with
  | None => true
  | Some VNone => true
  | Some (VStr s) => ascii_only s
  | _ => false
  end.

Definition is_bool (o : option value) : bool :=
  match o with
  | Some (VBool _) => true
  | _ => false
  end.

Definition list_or_none (o : option value) : bool :=
  match o with
  | None => true
  | Some VNone => true
  | Some (VList _) => true
  | _ => false
  end.

Definition plant_record (d : pydict) : bool :=
  is_str (d !! "name") && text_or_none (d !! "name")
  && text_or_none (d !! "scientific_name")
  && text_or_none (d !! "description")
  && is_str (d !! "light") && is_str (d !! "water")
  && is_str (d !! "care_level") && is_bool (d !! "pet_friendly")
  && is_str (d !! "size") && list_or_none (d !! "tags").

(** The free-text parameter is ASCII text whose only special character is
    [.]. *)
Definition dot_pattern (q : option string) : bool :=
  match q with
  | Some s =>
      forallb (fun c => is_ascii c && (Ascii.eqb c "." || negb (is_meta c)))
              (chars s)
  | None => true
  end.

(** The free-text parameter is ASCII text without special characters. *)
Definition literal_pattern (q : option string) : bool :=
  match q with
  | Some s => forallb (fun c => is_ascii c && negb (is_meta c)) (chars s)
  | None => true
  end.


(** An optional boolean answers a proposition. *)
Definition decides (x : option bool) (P : Prop) : Prop :=
  exists b, x = Some b /\ (b = true <-> P).

(** One step of [build_filter]: [if x: filt[key] = mk(x)]. *)
Definition add_entry {A : Type} (o : option A) (key : string)
                     (mk : A -> entry) (filt : querydict) : querydict :=
  match o with
  | Some a => <[ key := mk a ]> filt
  | None => filt
  end.

Definition monstera : pydict := default ∅ (head _seed_plants).

(** ** The diagnostic endpoint of [main.py] *)

(** [os.getenv(name)] in a test: the variable is set and not empty. *)
Definition env_set (env : gmap string string) (name : string) : bool :=
  match env !! name with
  | Some EmptyString => false
  | Some _ => true
  | None => false
  end.

(** Text is held as its UTF-8 bytes: a byte that continues a character,
    the number of characters of a text, and its first [n] characters. *)
Definition is_continuation (c : ascii) : bool :=
  ((128 <=? nat_of_ascii c) && (nat_of_ascii c <? 192))%nat.

Fixpoint utf8_length (s : string) : nat :=
  match s with
  | EmptyString => 0
  | String c s' =>
      if is_continuation c then utf8_length s' else S (utf8_length s')
  end.

Fixpoint utf8_take (n : nat) (s : string) : string :=
  match s with
  | EmptyString => EmptyString
  | String c s' =>
      if is_continuation c then String c (utf8_take n s')
      else match n with
           | O => EmptyString
           | S n' => String c (utf8_take n' s')
           end
  end.

(** The text starts at a character: it is empty, or its first byte begins
    one. *)
Definition at_boundary (s : string) : bool :=
  match s with
  | EmptyString => true
  | String c _ => negb (is_continuation c)
  end.

(** [str(e)[:50]] for the message of an exception. *)
Definition message_head (e : string) : string := utf8_take 50 e.

(** [test_database].  The handle of the model always has a [name];
    [list_collection_names] answers with the names or with the message of
    the exception it raises, which the inner handler catches.  No other
    statement of the outer block raises, so the outer handler is not
    reached. *)
Definition test_database (db : option Database)
    (list_collection_names : Database -> string + list string)
    (env : gmap string string) : pydict :=
  let response : pydict :=
    list_to_map
      [("backend", VStr "✅ Running");
       ("database", VStr "❌ Not Available");
       ("database_url", VNone);
       ("database_name", VNone);
       ("connection_status", VStr "Not Connected");
       ("collections", VList [])] in
  let response :=
    match db with
    | Some db =>
        let response := <[ "database" := VStr "✅ Available" ]> response in
        let response := <[ "database_url" := VStr "✅ Configured" ]> response in
        let response := <[ "database_name" := VStr (db_name db) ]> response in
        let response := <[ "connection_status" := VStr "Connected" ]> response in
        match list_collection_names db with
        | inr collections =>
            let response :=
              <[ "collections" := VList (VStr <$> py_slice_to collections 10) ]>
                response in
            <[ "database" := VStr "✅ Connected & Working" ]> response
        | inl e =>
            <[ "database" :=
                 VStr ("⚠️  Connected but Error: " +:+ message_head e) ]> response
        end
    | None =>
        <[ "database" := VStr "⚠️  Available but not initialized" ]> response
    end in
  let response :=
    <[ "database_url" :=
         VStr (if env_set env "DATABASE_URL" then "✅ Set" else "❌ Not Set") ]>
      response in
  let response :=
    <[ "database_name" :=
         VStr (if env_set env "DATABASE_NAME" then "✅ Set" else "❌ Not Set") ]>
      response in
  response.

(** ** The other models of [main.py] and [schemas.py] *)

(** [PlantQuery], a model that no handler uses. *)
Definition PlantQuery : ModelClass := {|
  model_name := "PlantQuery";
  docstring := "";
  model_fields := [
    ("q", Field (TOptional TStr) (Some VNone) None "");
    ("light", Field (TOptional TStr) (Some VNone) None "");
    ("water", Field (TOptional TStr) (Some VNone) None "");
    ("care_level", Field (TOptional TStr) (Some VNone) None "");
    ("pet_friendly", Field (TOptional TBool) (Some VNone) None "");
    ("size", Field (TOptional TStr) (Some VNone) None "");
    ("tags", Field (TOptional (TList TStr)) (Some VNone) None "")
  ]
|}.

(** [Product], one of the two example schemas. *)
Definition Product : ModelClass := {|
  model_name := "Product";
  docstring :=
    "Products collection schema" +:+ newline +:+
    "Collection name: " +:+ dquote +:+ "product" +:+ dquote
    +:+ " (lowercase of class name)";
  model_fields := [
    ("title", Field TStr None None "Product title");
    ("description", Field (TOptional TStr) (Some VNone) None "Product description");
    ("price", Field TFloat None (Some 0%Z) "Price in dollars");
    ("category", Field TStr None None "Product category");
    ("in_stock", Field TBool (Some (VBool true)) None "Whether product is in stock")
  ]
|}.

(** ** Reading programs and query dicts *)

(** The program calls [get_documents] on some run. *)
Inductive calls_get_documents {A : Type} : prog A -> Prop :=
| gets_here collection_name filt limit k :
    calls_get_documents (GetDocuments collection_name filt limit k)
| gets_after_get collection_name filt limit k docs :
    calls_get_documents (k docs) ->
    calls_get_documents (GetDocuments collection_name filt limit k)
| gets_after_create collection_name data k plant_id :
    calls_get_documents (k plant_id) ->
    calls_get_documents (CreateDocument collection_name data k).

(** The names of the fields of a model. *)
Definition field_names (m : ModelClass) : list string := (model_fields m).*1.

(** The keys of a query dict, one for each criterion that is given. *)
Definition key_if {A : Type} (o : option A) (key : string) : gset string :=
  match o with
  | Some _ => {[ key ]}
  | None => ∅
  end.

(** A datastore for the examples: its state is the list of the records
    created, and the identifier of a record is its position, in unary. *)
Definition list_create_document (collection_name : string) (data : pydict)
  (st : list pydict) : option string * list pydict :=
  (Some (String.concat "" (replicate (length st) "I")), st ++ [data])%list.

Definition list_get_documents (collection_name : string) (filt : querydict)
  (limit : Z) (st : list pydict) : option (list pydict) * list pydict :=
  (Some st, st).

(** What one step of [build_filter] asks of a document. *)
Definition asks {A : Type} (o : option A) (key : string) (mk : A -> entry)
                (d : pydict) : option bool :=
  match o with
  | Some a => entry_matches key (mk a) d
  | None => Some true
  end.


(** Two characters are the same letter, in either case. *)
Definition same_letter (c c' : ascii) : bool :=
  Ascii.eqb (ascii_lower c) (ascii_lower c').

Definition all_ascii : list ascii := map ascii_of_nat (seq 0 256).

(** Two characters that are the same letter are the same to the compiler
    of patterns. *)
Definition same_class (c c' : ascii) : bool :=
  Bool.eqb (Ascii.eqb c ".") (Ascii.eqb c' ".")
  && Bool.eqb (is_meta c) (is_meta c')
  && Bool.eqb (is_ascii c) (is_ascii c').

(** Two compiled patterns that differ in the case of their characters
    only. *)
Definition same_item (it it' : rx_item) : Prop :=
  match it, it' with
  | RxChar c, RxChar c' => ascii_lower c = ascii_lower c'
  | RxAny, RxAny => True
  | _, _ => False
  end.

(** The default of a field, when it has one, is a value that validation
    leaves as it is. *)
Definition default_is_valid (lax_bool : value -> option bool)
                            (lax_float : value -> option pyfloat)
                            (http_url : string -> option string)
                            (f : string * FieldInfo) : Prop :=
  forall dv, default_value f.2 = Some dv ->
             validate_type lax_bool lax_float http_url
                           (ge f.2) (annotation f.2) dv = inr dv.

(** The record of a body whose fields are valid as they are: at each
    field of the model, the value of the body, or the default. *)
Definition with_defaults (m : ModelClass) (data : pydict) : pydict :=
  list_to_map
    (map (fun f => (f.1, default (default VNone (default_value f.2))
                                 (data !! f.1)))
         (model_fields m)).

(** A body for the Product model, and the record that validation makes of
    it. *)
Definition trowel_body : pydict :=
  list_to_map
    [("title", VStr "Trowel");
     ("price", VInt 9);
     ("category", VStr "tools")].

Definition trowel : pydict :=
  list_to_map
    [("title", VStr "Trowel");
     ("description", VNone);
     ("price", VFloat (Finite (inject_Z 9)));
     ("category", VStr "tools");
     ("in_stock", VBool true)].

(** The answer of a store with more than ten collections, and an
    environment that sets the URL only. *)
Definition twelve_collections (db : Database) : string + list string :=
  inr ["a"; "b"; "c"; "d"; "e"; "f"; "g"; "h"; "i"; "j"; "k"; "l"].

Definition url_only : gmap string string :=
  {[ "DATABASE_URL" := "mongodb://localhost:27017" ]}.

(** * Properties *)

(** ** The seed fallback of [list_plants] *)

Lemma py_slice_to_nat {A : Type} (l : list A) (n : nat) :
  py_slice_to l (Z.of_nat n) = take n l.
Proof.
  unfold py_slice_to.
  destruct (Z.ltb_spec (Z.of_nat n) 0) as [Hneg | _]; [lia |].
  by rewrite Nat2Z.id.
Qed.

Lemma py_slice_to_prefix {A : Type} (l : list A) (stop : Z) :
  py_slice_to l stop = take (length (py_slice_to l stop)) l.
Proof.
  assert (Hpre : forall n : nat, take n l = take (length (take n l)) l).
  { intros n. rewrite length_take.
    destruct (Nat.le_gt_cases n (length l)) as [Hle | Hgt].
    - by rewrite Nat.min_l.
    - rewrite Nat.min_r by lia. rewrite firstn_all. apply take_ge. lia. }
  unfold py_slice_to. destruct (stop <? 0)%Z; apply Hpre.
Qed.

Lemma py_slice_to_length {A : Type} (l : list A) (stop : Z) :
  Z.of_nat (length (py_slice_to l stop)) =
  if (stop <? 0)%Z
  then Z.max 0 (Z.of_nat (length l) + stop)
  else Z.min (Z.of_nat (length l)) stop.
Proof.
  unfold py_slice_to.
  destruct (Z.ltb_spec stop 0); rewrite length_take; lia.
Qed.

(** C2: without a datastore, [list_plants] ignores every filter parameter
    and returns the seed list sliced to [limit] (its first [n] records for
    a limit [n] that is not negative); with no parameter at all, so with
    the default limit, that is the whole list of 5 records, in the order of
    the source, the first being Monstera Deliciosa with light bright. *)
Theorem list_plants_seed_fallback
  (py_str : value -> string)
  (q light water care_level : option string) (pet_friendly : option bool)
  (size tag : option string) (limit : Z) :
  list_plants py_str None q light water care_level pet_friendly size tag limit
    = Return (py_slice_to _seed_plants limit)
  /\ (forall n : nat,
        list_plants py_str None q light water care_level pet_friendly size tag
                    (Z.of_nat n)
        = Return (take n _seed_plants))
  /\ list_plants py_str None None None None None None None None default_limit
     = Return _seed_plants
  /\ length _seed_plants = 5%nat
  /\ name_of <$> _seed_plants
     = [Some (VStr "Monstera Deliciosa"); Some (VStr "Snake Plant");
        Some (VStr "ZZ Plant"); Some (VStr "Pothos");
        Some (VStr "Parlor Palm")]
  /\ (exists first, _seed_plants !! 0%nat = Some first
        /\ first !! "name" = Some (VStr "Monstera Deliciosa")
        /\ first !! "light" = Some (VStr "bright")).
Proof.
  repeat split.
  - intros n. simpl. by rewrite py_slice_to_nat.
  - eexists. repeat split.
Qed.

(** C3, as stated, fails: the request with [light=low] and no datastore is
    answered with a list that is not the three records of low light (it
    holds Monstera Deliciosa, of light bright). *)
Lemma light_low_fallback_is_not_filtered :
  list_plants example_str None None (Some "low") None None None None None
              default_limit
    <> Return (filter (fun d => has_light "low" d = true) _seed_plants)
  /\ exists l d,
      list_plants example_str None None (Some "low") None None None None None
                  default_limit = Return l
      /\ d ∈ l /\ d !! "light" = Some (VStr "bright").
Proof.
  split.
  - intros H. apply (f_equal (fun p => match p with
                                       | Return l => length l
                                       | _ => 0%nat
                                       end)) in H.
    vm_compute in H. discriminate.
  - exists _seed_plants. eexists. split; [reflexivity |].
    split; [apply list_elem_of_here | reflexivity].
Qed.

(** C3, amended: without a datastore the request with [light=low] is
    answered with the five seed records, unfiltered; the seed records of low
    light are Snake Plant, ZZ Plant and Parlor Palm. *)
Theorem light_low_fallback_returns_all_seeds (py_str : value -> string) :
  list_plants py_str None None (Some "low") None None None None None
              default_limit
    = Return _seed_plants
  /\ name_of <$> filter (fun d => has_light "low" d = true) _seed_plants
     = [Some (VStr "Snake Plant"); Some (VStr "ZZ Plant");
        Some (VStr "Parlor Palm")].
Proof. split; reflexivity. Qed.

(** C10, as stated, fails at [limit = -5]: the limit is negative and the
    result is the empty list. *)
Lemma negative_limit_can_give_empty_result :
  (-5 < 0)%Z
  /\ list_plants example_str None None None None None None None None (-5)
     = Return [].
Proof. split; [lia | reflexivity]. Qed.

(** C10, amended: for every integer limit the seed fallback returns a
    prefix of the 5 seed records, without error; its length is [min 5 limit]
    for a limit that is not negative (all 5 from 5 on, none for 0) and
    [max 0 (5 + limit)] for a negative one (4 for -1, none from -5 down). *)
Theorem seed_fallback_slice_total
  (py_str : value -> string)
  (q light water care_level : option string) (pet_friendly : option bool)
  (size tag : option string) (limit : Z) :
  exists l,
    list_plants py_str None q light water care_level pet_friendly size tag limit
      = Return l
    /\ l = take (length l) _seed_plants
    /\ Z.of_nat (length l)
       = if (limit <? 0)%Z then Z.max 0 (5 + limit) else Z.min 5 limit.
Proof.
  exists (py_slice_to _seed_plants limit). split; [reflexivity |].
  split; [apply py_slice_to_prefix |].
  by rewrite py_slice_to_length.
Qed.

(** ** Empty parameters *)

(** C9: an empty string for [q], [light], [water], [care_level], [size] or
    [tag] gives the same query dict, and so the same program and the same
    result, as the absent parameter, with or without a datastore. *)
Theorem empty_string_parameter_is_absent
  (py_str : value -> string) (db : option Database)
  (q light water care_level : option string) (pet_friendly : option bool)
  (size tag : option string) (limit : Z) :
  let lp := list_plants py_str db in
  lp (Some "") light water care_level pet_friendly size tag limit
    = lp None light water care_level pet_friendly size tag limit
  /\ lp q (Some "") water care_level pet_friendly size tag limit
     = lp q None water care_level pet_friendly size tag limit
  /\ lp q light (Some "") care_level pet_friendly size tag limit
     = lp q light None care_level pet_friendly size tag limit
  /\ lp q light water (Some "") pet_friendly size tag limit
     = lp q light water None pet_friendly size tag limit
  /\ lp q light water care_level pet_friendly (Some "") tag limit
     = lp q light water care_level pet_friendly None tag limit
  /\ lp q light water care_level pet_friendly size (Some "") limit
     = lp q light water care_level pet_friendly size None limit
  /\ build_filter (Some "") (Some "") (Some "") (Some "") pet_friendly
                  (Some "") (Some "")
     = build_filter None None None None pet_friendly None None.
Proof. repeat split. Qed.

(** ** The schema endpoint *)

(** C7: the object returned by [get_schema] holds, under [plant], a schema
    whose properties include [light], a string restricted by [enum] to the
    list low, medium, bright. *)
Theorem get_schema_light_enum :
  exists schema properties light,
    get_schema !! "plant" = Some (VDict schema)
    /\ schema !! "properties" = Some (VDict properties)
    /\ properties !! "light" = Some (VDict light)
    /\ light !! "type" = Some (VStr "string")
    /\ light !! "enum" = Some (VList [VStr "low"; VStr "medium"; VStr "bright"]).
Proof.
  exists (model_json_schema Plant).
  exists (list_to_map (map (fun f => (f.1, VDict (field_schema f.1 f.2)))
                           (model_fields Plant))).
  exists (field_schema "light" (Field LightLevel None None "Preferred light level")).
  split; [reflexivity |].
  split; [reflexivity |].
  repeat split; vm_compute; reflexivity.
Qed.

(** ** Creating a plant without a datastore *)

Lemma raise_calls_nothing {A : Type} (e : exn) :
  ~ calls_create_document (@Raise A e).
Proof. intros H. inversion H. Qed.

(** C4, as stated, fails: without a datastore the empty JSON object, which
    lacks the required fields, is answered with the validation error, of
    status 422, and not with 503. *)
Lemma post_invalid_body_without_datastore_is_422 :
  post_plants strict_bool strict_float url_as_written None (VDict ∅)
    = Raise (RequestValidationError
               [("name", "missing"); ("light", "missing");
                ("water", "missing"); ("care_level", "missing")])
  /\ run (fixed_get_documents []) no_create_document
         (post_plants strict_bool strict_float url_as_written None (VDict ∅)) tt
     = (Failed 422, tt)
  /\ (422 <> 503)%Z.
Proof. repeat split. lia. Qed.

(** C4, amended: without a datastore, [POST /plants] with a body that
    passes the validation of the Plant schema fails with status 503, and
    with a body that does not pass it fails with the validation error
    (status 422); for every body no record is created: [create_document] is
    not called and the state of the datastore is unchanged. *)
Theorem post_plants_without_datastore
  (lax_bool : value -> option bool) (lax_float : value -> option pyfloat)
  (http_url : string -> option string) (body : value) :
  let p := post_plants lax_bool lax_float http_url None body in
  p = match model_validate lax_bool lax_float http_url Plant body with
      | inl errs => Raise (RequestValidationError errs)
      | inr _ => Raise (HTTPException 503 "Database not configured")
      end
  /\ (forall plant : pydict,
        create_plant None plant
        = Raise (HTTPException 503 "Database not configured"))
  /\ ~ calls_create_document p
  /\ forall (Store : Type)
            (get_documents :
               string -> querydict -> Z -> Store -> option (list pydict) * Store)
            (create_document :
               string -> pydict -> Store -> option string * Store)
            (st : Store),
       run get_documents create_document p st
       = (Failed (match model_validate lax_bool lax_float http_url Plant body with
                  | inl _ => 422
                  | inr _ => 503
                  end)%Z, st).
Proof.
  unfold post_plants.
  destruct (model_validate lax_bool lax_float http_url Plant body) as [errs | plant];
    simpl; repeat split; auto using @raise_calls_nothing.
Qed.

(** ** The records returned from the datastore *)

Lemma str_if_truthy_same (py_str : value -> string) (key : string) (d : pydict) :
  rendered_at py_str key d (str_if_truthy py_str key d).
Proof.
  unfold rendered_at, str_if_truthy, dict_get.
  destruct (d !! key) as [v |] eqn:Hkey; simpl.
  - destruct (py_truthy v); [by rewrite lookup_insert_eq | done].
  - done.
Qed.

Lemma str_if_truthy_other (py_str : value -> string) (key key' : string)
                          (d : pydict) :
  key <> key' -> str_if_truthy py_str key d !! key' = d !! key'.
Proof.
  intros Hne. unfold str_if_truthy.
  destruct (py_truthy _); [by rewrite lookup_insert_ne | done].
Qed.

Lemma render_doc_id (py_str : value -> string) (d : pydict) :
  render_doc py_str d !! "_id" = Some (VStr (py_str (dict_get d "_id"))).
Proof.
  unfold render_doc.
  rewrite !str_if_truthy_other by done. apply lookup_insert_eq.
Qed.

Lemma render_doc_timestamp (py_str : value -> string) (key : string) (d : pydict) :
  key = "created_at" \/ key = "updated_at" ->
  rendered_at py_str key d (render_doc py_str d).
Proof.
  intros Hkey. unfold render_doc.
  set (d1 := <["_id" := VStr (py_str (dict_get d "_id"))]> d).
  assert (H1 : d1 !! key = d !! key).
  { unfold d1. apply lookup_insert_ne. by destruct Hkey as [-> | ->]. }
  destruct Hkey as [-> | ->].
  - pose proof (str_if_truthy_same py_str "created_at" d1) as Hc.
    unfold rendered_at in *.
    rewrite str_if_truthy_other by done. by rewrite <- H1.
  - pose proof (str_if_truthy_same py_str "updated_at"
                  (str_if_truthy py_str "created_at" d1)) as Hu.
    unfold rendered_at in *.
    rewrite str_if_truthy_other in Hu by done. by rewrite <- H1.
Qed.

Lemma render_doc_other (py_str : value -> string) (key : string) (d : pydict) :
  key <> "_id" -> key <> "created_at" -> key <> "updated_at" ->
  render_doc py_str d !! key = d !! key.
Proof.
  intros H1 H2 H3. unfold render_doc.
  rewrite !str_if_truthy_other by done. by apply lookup_insert_ne.
Qed.

Lemma rendered_at_timestamp (py_str : value -> string) (key : string)
                            (d d' : pydict) :
  rendered_at py_str key d d' ->
  implb (is_timestamp (d !! key)) (is_str (d' !! key)) = true.
Proof.
  unfold rendered_at. destruct (d !! key) as [v |]; [| done].
  destruct v; try done. simpl. by intros ->.
Qed.

Lemma render_doc_rendered (py_str : value -> string) (d : pydict) :
  rendered py_str d (render_doc py_str d).
Proof.
  unfold rendered. rewrite render_doc_id.
  pose proof (render_doc_timestamp py_str "created_at" d (or_introl eq_refl)).
  pose proof (render_doc_timestamp py_str "updated_at" d (or_intror eq_refl)).
  pose proof (render_doc_other py_str).
  repeat split; eauto using rendered_at_timestamp.
Qed.

(** C8: when a request to [list_plants] with a datastore succeeds, the
    records returned are, one for one, the documents that [get_documents]
    found for the query dict and the limit, each with the text of its
    identifier, a string, at [_id] and, at [created_at] and [updated_at],
    the text of the stored value when that value is true in a test, as
    every datetime is: a stored timestamp is returned as a string, the one
    that [str] gives.  The other fields are returned as they are stored. *)
Theorem list_plants_renders_strings
  {Store : Type}
  (get_documents :
     string -> querydict -> Z -> Store -> option (list pydict) * Store)
  (create_document : string -> pydict -> Store -> option string * Store)
  (py_str : value -> string) (db : Database)
  (q light water care_level : option string) (pet_friendly : option bool)
  (size tag : option string) (limit : Z)
  (st st' : Store) (out : list pydict) :
  run get_documents create_document
      (list_plants py_str (Some db) q light water care_level pet_friendly
                   size tag limit) st
    = (Ok out, st') ->
  exists docs,
    get_documents "plant"
                  (build_filter q light water care_level pet_friendly size tag)
                  limit st
      = (Some docs, st')
    /\ Forall2 (rendered py_str) docs out.
Proof.
  simpl.
  destruct (get_documents _ _ _ _) as [[docs |] st1]; [| discriminate].
  simpl. intros [= <- <-]. exists docs. split; [reflexivity |].
  induction docs as [| d docs IH]; constructor; auto using render_doc_rendered.
Qed.

(** The theorem at a datastore that holds one fern: the identifier and
    the timestamps of the record returned are the texts of the stored
    ones. *)
Lemma list_plants_renders_strings_witness :
  (exists docs,
     fixed_get_documents [stored_fern] "plant"
                         (build_filter None (Some "medium") None None None None None)
                         default_limit tt
       = (Some docs, tt)
     /\ Forall2 (rendered example_str) docs [render_doc example_str stored_fern])
  /\ render_doc example_str stored_fern !! "_id"
     = Some (VStr "65f1c0ffee0123456789abcd")
  /\ render_doc example_str stored_fern !! "created_at"
     = Some (VStr "2024-03-13 10:15:00.250000")
  /\ render_doc example_str stored_fern !! "name" = Some (VStr "Boston Fern").
Proof.
  split.
  - apply (list_plants_renders_strings
             (fixed_get_documents [stored_fern]) no_create_document
             example_str {| db_name := "plants" |}
             None (Some "medium") None None None None None default_limit tt tt).
    reflexivity.
  - repeat split; vm_compute; reflexivity.
Defined.

(** ** Validation against the Plant schema *)

Section ValidationFacts.

Variable lax_bool : value -> option bool.
Variable lax_float : value -> option pyfloat.
Variable http_url : string -> option string.

Local Abbreviation vtype := (validate_type lax_bool lax_float http_url).
Local Abbreviation vfield := (validate_field lax_bool lax_float http_url).
Local Abbreviation vfields := (validate_fields lax_bool lax_float http_url).
Local Abbreviation vmodel := (model_validate lax_bool lax_float http_url).

Lemma single_error (e : string) :
  e <> "missing" -> [e] <> [] /\ "missing" ∉ [e].
Proof. intros He. split; [done |]. by intros <-%list_elem_of_singleton. Qed.

(** A failed validation reports at least one error, and none of them is
    "missing", the error of an absent field. *)
Lemma validate_type_errors bound t v es :
  vtype bound t v = inl es -> es <> [] /\ "missing" ∉ es.
Proof.
  revert bound v es.
  induction t as [| | | | choices | item IH | inner IH]; intros bound v es;
    simpl.
  - destruct v; by intros [= <-]; apply single_error.
  - destruct v; try done; destruct (lax_bool _);
      by intros [= <-]; apply single_error.
  - destruct (as_float lax_float v) as [f |];
      [| intros [= <-]; apply single_error; by destruct v].
    destruct (ge_ok bound f); by intros [= <-]; apply single_error.
  - destruct v; try (by intros [= <-]; apply single_error).
    destruct (http_url s); by intros [= <-]; apply single_error.
  - destruct v; try (by intros [= <-]; apply single_error).
    case_bool_decide; by intros [= <-]; apply single_error.
  - destruct v; try (by intros [= <-]; apply single_error).
    revert es. induction l as [| x l IHl]; intros es; [done |].
    destruct (vtype None item x) as [ex | x'] eqn:Hx;
      match goal with
      | |- context [match ?items l with inl _ => _ | inr _ => _ end] =>
          destruct (items l) as [el | r] eqn:Hl
      end.
    + intros [= <-]. destruct (IH _ _ _ Hx) as [Hne Hno].
      destruct (IHl _ eq_refl) as [_ Hnol].
      split; [by destruct ex |]. by intros [? | ?]%elem_of_app.
    + intros [= <-]. by eapply IH.
    + intros [= <-]. by apply IHl.
    + destruct r; by intros [= <-]; apply single_error.
  - destruct v; try apply IH. done.
Qed.

Lemma validate_field_errors (data : pydict) name fi es :
  vfield data name fi = inl es -> es <> [].
Proof.
  unfold validate_field. destruct (data !! name) as [v |].
  - destruct (vtype (ge fi) (annotation fi) v) as [e |] eqn:Hv;
      [| discriminate].
    intros [= <-]. apply validate_type_errors in Hv as [Hne _].
    by destruct e.
  - destruct (default_value fi); [discriminate | by intros [= <-]].
Qed.

Lemma validate_fields_step (data : pydict) name fi rest :
  vfields data ((name, fi) :: rest)
  = match vfield data name fi with
    | inl es => ((es ++ (vfields data rest).1)%list, (vfields data rest).2)
    | inr v => ((vfields data rest).1, <[name := v]> (vfields data rest).2)
    end.
Proof. simpl. by destruct (vfields data rest), (vfield data name fi). Qed.

(** Without errors, every field was accepted. *)
Lemma validate_fields_accepted (data : pydict) name fi rest :
  (vfields data ((name, fi) :: rest)).1 = [] ->
  exists v, vfield data name fi = inr v
            /\ (vfields data rest).1 = []
            /\ (vfields data ((name, fi) :: rest)).2
               = <[name := v]> (vfields data rest).2.
Proof.
  rewrite validate_fields_step.
  destruct (vfield data name fi) as [es | v] eqn:Hhead; simpl.
  - intros [Hes _]%app_eq_nil. by apply validate_field_errors in Hhead.
  - intros Hrest. by exists v.
Qed.

Lemma validate_fields_error (data : pydict) fields name fi es :
  (name, fi) ∈ fields ->
  vfield data name fi = inl es ->
  (vfields data fields).1 <> [].
Proof.
  induction fields as [| [n f] rest IH]; intros Hin Hf.
  - inversion Hin.
  - rewrite validate_fields_step.
    apply elem_of_cons in Hin as [[= <- <-] | Hin].
    + rewrite Hf. simpl. intros [Hes _]%app_eq_nil.
      by apply validate_field_errors in Hf.
    + destruct (vfield data n f); simpl; [| by apply IH].
      intros [_ Hrest]%app_eq_nil. by apply IH.
Qed.

Lemma validate_fields_lookup (data : pydict) fields name fi :
  NoDup fields.*1 ->
  (name, fi) ∈ fields ->
  (vfields data fields).1 = [] ->
  exists v, vfield data name fi = inr v
            /\ (vfields data fields).2 !! name = Some v.
Proof.
  induction fields as [| [n f] rest IH]; intros Hnd Hin Herrs.
  - inversion Hin.
  - apply NoDup_cons in Hnd as [Hn Hnd].
    apply validate_fields_accepted in Herrs as (v0 & Hhead & Herrs & ->).
    apply elem_of_cons in Hin as [[= <- <-] | Hin].
    + exists v0. by rewrite lookup_insert_eq.
    + destruct (IH Hnd Hin Herrs) as (v & Hv & Hlook).
      exists v. split; [done |].
      rewrite lookup_insert_ne; [done |].
      intros <-. apply Hn. apply list_elem_of_fmap. by exists (n, fi).
Qed.

Lemma validate_field_insert_ne (data : pydict) key v name fi :
  key <> name ->
  vfield (<[key := v]> data) name fi = vfield data name fi.
Proof. intros Hne. unfold validate_field. by rewrite lookup_insert_ne. Qed.

Lemma validate_fields_insert_fresh (data : pydict) key v fields :
  key ∉ fields.*1 ->
  vfields (<[key := v]> data) fields = vfields data fields.
Proof.
  induction fields as [| [n f] rest IH]; intros Hnotin; [done |].
  simpl in *. apply not_elem_of_cons in Hnotin as [Hne Hnotin].
  by rewrite IH, validate_field_insert_ne.
Qed.

(** Replacing the input of one field by an input that is accepted keeps the
    body valid, and changes the instance at that field only. *)
Lemma validate_fields_insert (data : pydict) key v v' fi fields inst :
  NoDup fields.*1 ->
  (key, fi) ∈ fields ->
  vfields data fields = ([], inst) ->
  vfield (<[key := v]> data) key fi = inr v' ->
  vfields (<[key := v]> data) fields = ([], <[key := v']> inst).
Proof.
  revert inst.
  induction fields as [| [n f] rest IH]; intros inst Hnd Hin Hall Hnew.
  - inversion Hin.
  - simpl in *. apply NoDup_cons in Hnd as [Hn Hnd].
    destruct (vfields data rest) as [errs inst0] eqn:Hrest.
    destruct (vfield data n f) as [e | v0] eqn:Hhead.
    { apply validate_field_errors in Hhead. by destruct e. }
    injection Hall as -> <-.
    apply elem_of_cons in Hin as [[= <- <-] | Hin].
    + rewrite validate_fields_insert_fresh, Hrest, Hnew by done.
      by rewrite insert_insert_eq.
    + assert (key <> n) as Hne.
      { intros ->. apply Hn. apply list_elem_of_fmap. by exists (n, fi). }
      rewrite (IH inst0) by done.
      rewrite validate_field_insert_ne, Hhead by done.
      by rewrite insert_insert_ne.
Qed.

Lemma validate_literal bound choices v0 v :
  vtype bound (TLiteral choices) v0 = inr v ->
  exists s, v = VStr s /\ s ∈ choices.
Proof.
  simpl. destruct v0; try discriminate.
  case_bool_decide; [| discriminate]. intros [= <-]. eauto.
Qed.

Lemma validate_literal_outside bound choices v0 :
  (forall s, v0 = VStr s -> s ∉ choices) ->
  vtype bound (TLiteral choices) v0 = inl ["literal_error"].
Proof.
  intros Hout. simpl. destruct v0; try done.
  case_bool_decide; [| done]. by destruct (Hout s).
Qed.

Lemma Plant_fields_NoDup : NoDup (model_fields Plant).*1.
Proof. apply (bool_decide_unpack _). vm_compute. reflexivity. Qed.


Lemma model_validate_inl (data : pydict) name fi e :
  (name, fi) ∈ model_fields Plant ->
  vfield data name fi = inl e ->
  exists errs, errs <> [] /\ vmodel Plant (VDict data) = inl errs.
Proof.
  intros Hin Hf. pose proof (validate_fields_error _ _ _ _ _ Hin Hf) as Herr.
  unfold model_validate.
  destruct (vfields data (model_fields Plant)) as [[| e0 errs] inst];
    [done |].
  by exists (e0 :: errs).
Qed.

Lemma round_to_double_negative (z : Z) :
  (z < 0)%Z -> (round_to_double z < 0)%Z.
Proof.
  intros Hz. unfold round_to_double.
  set (a := Z.abs z). set (e := (Z.log2 a - 52)%Z).
  destruct (Z.leb_spec e 0) as [_ | He]; [done |].
  assert (Ha : (0 < a)%Z) by (unfold a; lia).
  assert (Hpow : (0 < 2 ^ e)%Z) by (apply Z.pow_pos_nonneg; lia).
  assert (Hq : (1 <= a / 2 ^ e)%Z).
  { apply Z.div_le_lower_bound; [done |].
    pose proof (Z.log2_spec a Ha) as [Hlow _].
    assert ((2 ^ e <= 2 ^ Z.log2 a)%Z)
      by (apply Z.pow_le_mono_r; unfold e; lia).
    lia. }
  rewrite Z.sgn_neg by done.
  destruct ((2 ^ (e - 1) <? a mod 2 ^ e)%Z
            || ((a mod 2 ^ e =? 2 ^ (e - 1))%Z && Z.odd (a / 2 ^ e))); nia.
Qed.

Lemma negative_int_is_no_price (z : Z) :
  (z < 0)%Z ->
  match int_as_float z with
  | Some f => ge_ok (Some 0%Z) f = false
  | None => True
  end.
Proof.
  intros Hz. unfold int_as_float.
  destruct (Z.abs (round_to_double z) <? 2 ^ 1024)%Z; [| done]. simpl.
  destruct (Qle_bool (inject_Z 0) (inject_Z (round_to_double z))) eqn:Hle;
    [| done].
  apply Qle_bool_iff in Hle. rewrite <- Zle_Qle in Hle.
  pose proof (round_to_double_negative z Hz). lia.
Qed.

Lemma fails_schema_invalid (body : value) :
  fails_schema body ->
  exists errs, errs <> [] /\ vmodel Plant body = inl errs.
Proof.
  destruct 1 as [body Hbody | data key fi Hin Hdefault Hkey
                 | data key fi choices v Hin Hann Hkey Hout
                 | data q Hprice Hneg | data z Hprice Hneg].
  - destruct body; try (by eexists; split; [| reflexivity]).
    by destruct (Hbody d).
  - eapply (model_validate_inl data key fi); [done |].
    unfold validate_field. by rewrite Hkey, Hdefault.
  - eapply (model_validate_inl data key fi); [done |].
    unfold validate_field. rewrite Hkey, Hann.
    by rewrite validate_literal_outside.
  - eapply (model_validate_inl data "price");
      [repeat first [apply list_elem_of_here | apply list_elem_of_further] |].
    unfold validate_field. rewrite Hprice. simpl.
    destruct (Qle_bool (inject_Z 0) q) eqn:Hle; [| done].
    apply Qle_bool_iff in Hle. exfalso.
    apply (Qlt_irrefl q). eapply Qlt_le_trans; [exact Hneg | exact Hle].
  - pose proof (negative_int_is_no_price z Hneg) as Hno.
    destruct (int_as_float z) as [f |] eqn:Hz;
      (eapply (model_validate_inl data "price");
       [repeat first [apply list_elem_of_here | apply list_elem_of_further] |]);
      unfold validate_field; rewrite Hprice;
      cbn [default_value annotation ge validate_type as_float];
      rewrite Hz, ?Hno; reflexivity.
Qed.

Lemma model_validate_errors_nonempty (m : ModelClass) (body : value) errs :
  vmodel m body = inl errs -> errs <> [].
Proof.
  unfold model_validate. destruct body; try (by intros [= <-]).
  destruct (vfields d (model_fields m)) as [[| e0 errs0] inst];
    [discriminate | by intros [= <-]].
Qed.

End ValidationFacts.

(** C5: a body that fails the validation of the Plant schema, whatever the
    errors, is answered with them as the validation error, of status 422,
    whether a datastore is configured or not, and no record is created:
    [create_document] is not called and the state of the datastore is
    unchanged.  And validation fails, in particular, for a body without
    [name] or another required field, for one with a value outside the
    literals of an enum field, for one with a negative price, and for one
    that is no JSON object. *)
Theorem post_plants_invalid_body_is_422
  (lax_bool : value -> option bool) (lax_float : value -> option pyfloat)
  (http_url : string -> option string)
  (db : option Database) (body : value) :
  (forall errs : list ErrorDetail,
     model_validate lax_bool lax_float http_url Plant body = inl errs ->
     errs <> []
     /\ post_plants lax_bool lax_float http_url db body
        = Raise (RequestValidationError errs)
     /\ status_of (RequestValidationError errs) = 422%Z
     /\ ~ calls_create_document
            (post_plants lax_bool lax_float http_url db body)
     /\ forall (Store : Type)
               (get_documents :
                  string -> querydict -> Z -> Store
                  -> option (list pydict) * Store)
               (create_document :
                  string -> pydict -> Store -> option string * Store)
               (st : Store),
          run get_documents create_document
              (post_plants lax_bool lax_float http_url db body) st
          = (Failed 422, st))
  /\ (fails_schema body ->
      exists errs,
        model_validate lax_bool lax_float http_url Plant body = inl errs).
Proof.
  split.
  - intros errs Hval.
    split; [by eapply model_validate_errors_nonempty |].
    unfold post_plants. rewrite Hval.
    repeat split; auto using @raise_calls_nothing.
  - intros Hfails.
    destruct (fails_schema_invalid lax_bool lax_float http_url body Hfails)
      as (errs & _ & Hval).
    eauto.
Qed.

(** The theorem at the empty JSON object, with a datastore. *)
Lemma post_plants_invalid_body_is_422_witness :
  post_plants strict_bool strict_float url_as_written
              (Some {| db_name := "plants" |}) (VDict ∅)
  = Raise (RequestValidationError
             [("name", "missing"); ("light", "missing");
              ("water", "missing"); ("care_level", "missing")])
  /\ exists errs,
       model_validate strict_bool strict_float url_as_written Plant (VDict ∅)
       = inl errs.
Proof.
  destruct (post_plants_invalid_body_is_422
              strict_bool strict_float url_as_written
              (Some {| db_name := "plants" |}) (VDict ∅))
    as [Hall Hfails].
  split.
  - apply (Hall [("name", "missing"); ("light", "missing");
                 ("water", "missing"); ("care_level", "missing")]).
    reflexivity.
  - apply Hfails.
    apply (fails_missing_required ∅ "name" (Field TStr None None "Common name"));
      [apply list_elem_of_here | reflexivity | reflexivity].
Defined.




Ltac plant_field :=
  repeat first [apply list_elem_of_here | apply list_elem_of_further].



(** ** The query dict of [list_plants] *)

Lemma both_swap (x y acc : option bool) :
  both x (both y acc) = both y (both x acc).
Proof. destruct x as [[] |], y as [[] |], acc as [[] |]; reflexivity. Qed.

Lemma filter_matches_empty (d : pydict) : filter_matches ∅ d = Some true.
Proof. unfold filter_matches. by rewrite map_to_list_empty. Qed.

Lemma filter_matches_insert (filt : querydict) key e (d : pydict) :
  filt !! key = None ->
  filter_matches (<[key := e]> filt) d
  = both (entry_matches key e d) (filter_matches filt d).
Proof.
  intros Hfresh. unfold filter_matches.
  rewrite (foldr_permutation eq _ _ _ ((key, e) :: map_to_list filt));
    [reflexivity | | by apply map_to_list_insert].
  intros. apply both_swap.
Qed.

Lemma add_entry_lookup_ne {A : Type} (o : option A) key key' mk
                          (filt : querydict) :
  key <> key' -> add_entry o key mk filt !! key' = filt !! key'.
Proof. intros Hne. destruct o; simpl; [by rewrite lookup_insert_ne | done]. Qed.

Lemma decides_both (x acc : option bool) (P Q : Prop) :
  decides x P -> decides acc Q -> decides (both x acc) (P /\ Q).
Proof.
  intros (b & -> & Hb) (r & -> & Hr). exists (b && r). split; [done |].
  rewrite andb_true_iff. tauto.
Qed.

Lemma decides_iff (x : option bool) (P Q : Prop) :
  (P <-> Q) -> decides x P -> decides x Q.
Proof. intros HPQ (b & -> & Hb). exists b. split; [done | tauto]. Qed.

(** A step of [build_filter] on a fresh key asks the new entry on top of
    the others, and asks nothing for a criterion that is not given. *)
Lemma decides_add_entry {A : Type} (o : option A) key mk (filt : querydict)
                        (d : pydict) (P : A -> Prop) (Q : Prop) :
  filt !! key = None ->
  (forall a, o = Some a -> decides (entry_matches key (mk a) d) (P a)) ->
  decides (filter_matches filt d) Q ->
  decides (filter_matches (add_entry o key mk filt) d) (supplied o P /\ Q).
Proof.
  intros Hfresh Hentry Hrest. destruct o as [a |]; simpl.
  - rewrite filter_matches_insert by done. apply decides_both; auto.
  - eapply decides_iff; [| exact Hrest]. tauto.
Qed.

Lemma build_filter_steps q light water care_level pet_friendly size tag :
  build_filter q light water care_level pet_friendly size tag
  = add_entry (given tag) "tags" (fun t => OnField (CIn [LStr t]))
      (add_entry (given size) "size" (fun x => OnField (CEq (LStr x)))
         (add_entry pet_friendly "pet_friendly" (fun b => OnField (CEq (LBool b)))
            (add_entry (given care_level) "care_level"
                       (fun x => OnField (CEq (LStr x)))
               (add_entry (given water) "water" (fun x => OnField (CEq (LStr x)))
                  (add_entry (given light) "light"
                             (fun x => OnField (CEq (LStr x)))
                     (add_entry (given q) "$or"
                        (fun q => Or [("name", CRegex q "i");
                                      ("scientific_name", CRegex q "i");
                                      ("description", CRegex q "i")])
                        ∅)))))).
Proof. reflexivity. Qed.

Lemma lit_eq_str (x : string) (v : value) :
  lit_eq (LStr x) v = true <-> v = VStr x.
Proof.
  destruct v; simpl; try (split; [discriminate | done]).
  rewrite String.eqb_eq. split; [by intros -> | by intros [= ->]].
Qed.

Lemma decides_eq_str (key x : string) (d : pydict) :
  is_str (d !! key) = true ->
  decides (entry_matches key (OnField (CEq (LStr x))) d)
          (d !! key = Some (VStr x)).
Proof.
  unfold entry_matches. destruct (d !! key) as [[] |]; try discriminate.
  intros _. simpl. eexists. split; [reflexivity |].
  rewrite String.eqb_eq. split; [by intros -> | by intros [= ->]].
Qed.

Lemma decides_eq_bool (key : string) (b : bool) (d : pydict) :
  is_bool (d !! key) = true ->
  decides (entry_matches key (OnField (CEq (LBool b))) d)
          (d !! key = Some (VBool b)).
Proof.
  unfold entry_matches. destruct (d !! key) as [[] |]; try discriminate.
  intros _. simpl. eexists. split; [reflexivity |].
  rewrite Bool.eqb_true_iff. split; [by intros -> | by intros [= ->]].
Qed.

Lemma decides_in_tag (t : string) (d : pydict) :
  list_or_none (d !! "tags") = true ->
  decides (entry_matches "tags" (OnField (CIn [LStr t])) d) (has_tag t d).
Proof.
  unfold entry_matches, has_tag.
  destruct (d !! "tags") as [[] |]; try discriminate; intros _; simpl;
    eexists; (split; [reflexivity |]).
  - split; [discriminate | by intros (l & [=] & _)].
  - rewrite orb_false_r, existsb_exists. split.
    + intros (v & Hin & Hv). apply lit_eq_str in Hv as ->.
      exists l. split; [done | by apply list_elem_of_In].
    + intros (l' & [= <-] & Hin). exists (VStr t).
      split; [by apply list_elem_of_In | by apply lit_eq_str].
  - split; [discriminate | by intros (l & [=] & _)].
Qed.

Lemma decides_regex_field (q field : string) items (d : pydict) :
  compile_pattern (chars q) = Some items ->
  text_or_none (d !! field) = true ->
  decides (cond_matches (CRegex q "i") (d !! field))
          (exists s, d !! field = Some (VStr s)
                     /\ search true items (chars s) = true).
Proof.
  intros Hc. unfold cond_matches.
  destruct (d !! field) as [[] |]; try discriminate; simpl.
  - intros _. rewrite Hc. simpl. exists false.
    split; [done |]. split; [discriminate | by intros (s & [=] & _)].
  - intros Hascii. unfold regex_search. rewrite Hc. simpl. rewrite Hascii.
    eexists. split; [reflexivity |]. split; [by eauto |].
    by intros (s' & [= <-] & Hs).
  - intros _. rewrite Hc. simpl. exists false.
    split; [done |]. split; [discriminate | by intros (s & [=] & _)].
Qed.

Lemma decides_either (x acc : option bool) (P Q : Prop) :
  decides x P -> decides acc Q ->
  decides (b ← x; r ← acc; Some (b || r)) (P \/ Q).
Proof.
  intros (b & -> & Hb) (r & -> & Hr). exists (b || r). split; [done |].
  rewrite orb_true_iff. tauto.
Qed.

Lemma any_alternative_cons field c alts (d : pydict) :
  any_alternative ((field, c) :: alts) d
  = (b ← cond_matches c (d !! field); r ← any_alternative alts d; Some (b || r)).
Proof. reflexivity. Qed.

Lemma decides_or_regex (q : string) items (d : pydict) :
  compile_pattern (chars q) = Some items ->
  text_or_none (d !! "name") = true ->
  text_or_none (d !! "scientific_name") = true ->
  text_or_none (d !! "description") = true ->
  decides (entry_matches "$or"
             (Or [("name", CRegex q "i"); ("scientific_name", CRegex q "i");
                  ("description", CRegex q "i")]) d)
          (regex_text q d).
Proof.
  intros Hc Hn Hs Hd.
  change (entry_matches "$or" ?e d) with
    (any_alternative [("name", CRegex q "i"); ("scientific_name", CRegex q "i");
                      ("description", CRegex q "i")] d).
  rewrite !any_alternative_cons.
  eapply decides_iff;
    [| apply decides_either; [by apply (decides_regex_field q "name" items) |];
       apply decides_either;
         [by apply (decides_regex_field q "scientific_name" items) |];
       apply decides_either;
         [by apply (decides_regex_field q "description" items) |];
       exists false; split; [reflexivity | reflexivity]].
  unfold regex_text, text_fields. split.
  - intros [(s & H1 & H2) | [(s & H1 & H2) | [(s & H1 & H2) | [=]]]];
      exists items; eexists _, s; (split; [done |]);
      (split; [| by split]);
      repeat first [apply list_elem_of_here | apply list_elem_of_further].
  - intros (items' & field & s & Hc' & Hin & Hf & Hs').
    rewrite Hc in Hc'. injection Hc' as <-.
    repeat (apply elem_of_cons in Hin as [-> | Hin]; [by eauto 6 |]).
    inversion Hin.
Qed.

(** ** Patterns without special characters *)






(** ** The contract of the filter *)



(** ** Patterns of characters and dots *)

Lemma compile_dot_pattern (q : list ascii) :
  forallb (fun c => is_ascii c && (Ascii.eqb c "." || negb (is_meta c))) q
  = true ->
  compile_pattern q = Some (map item_of q).
Proof.
  induction q as [| c q IH]; [done |]. simpl.
  rewrite !andb_true_iff, orb_true_iff, negb_true_iff.
  intros [[Hascii Hc] Hq]. rewrite (IH Hq). unfold item_of.
  destruct (Ascii.eqb c ".") eqn:Hdot; [done |].
  destruct Hc as [| Hmeta]; [done |]. by rewrite Hmeta, Hascii.
Qed.

Lemma item_matches_agrees (p c : ascii) :
  item_matches true (item_of p) c = true <-> char_agrees p c.
Proof.
  unfold item_of, char_agrees. destruct (Ascii.eqb p "."); simpl.
  - rewrite negb_true_iff. destruct (Ascii.eqb_spec c (ascii_of_nat 10));
      split; done.
  - apply Ascii.eqb_eq.
Qed.

Lemma match_here_pattern (q s : list ascii) :
  match_here true (map item_of q) s = true
  <-> exists mid post, s = (mid ++ post)%list /\ Forall2 char_agrees q mid.
Proof.
  revert s. induction q as [| p q IH]; intros s.
  - simpl. split; [| done]. intros _. exists [], s. by split; [| constructor].
  - destruct s as [| c s]; simpl.
    + split; [discriminate |]. intros (mid & post & Hs & Hmid).
      inversion Hmid; subst. discriminate.
    + rewrite andb_true_iff, item_matches_agrees, IH. split.
      * intros (Hc & mid & post & -> & Hmid).
        exists (c :: mid), post. by split; [| constructor].
      * intros (mid & post & Hs & Hmid).
        inversion Hmid as [| ? c' ? mid' Hc Hmid']; subst.
        injection Hs as <- ->. eauto.
Qed.

Lemma search_pattern (q s : list ascii) :
  search true (map item_of q) s = true
  <-> exists pre mid post,
        s = (pre ++ mid ++ post)%list /\ Forall2 char_agrees q mid.
Proof.
  induction s as [| c s IH]; simpl; rewrite orb_true_iff, match_here_pattern.
  - split.
    + intros [(mid & post & Hs & Hmid) | [=]]. by exists [], mid, post.
    + intros ([| x pre] & mid & post & Hs & Hmid); [| discriminate].
      left. by exists mid, post.
  - rewrite IH. split.
    + intros [(mid & post & Hs & Hmid) | (pre & mid & post & -> & Hmid)].
      * by exists [], mid, post.
      * by exists (c :: pre), mid, post.
    + intros ([| x pre] & mid & post & Hs & Hmid).
      * left. by exists mid, post.
      * right. injection Hs as _ ->. by exists pre, mid, post.
Qed.

(** For a pattern of characters and dots, what the store finds is what
    agrees with the pattern. *)
Lemma regex_text_pattern (q : string) (d : pydict) :
  dot_pattern (Some q) = true ->
  regex_text q d <-> pattern_text q d.
Proof.
  intros Hdot. apply compile_dot_pattern in Hdot.
  unfold regex_text, pattern_text, found_in. split.
  - intros (items & field & s & Hc & Hin & Hf & Hs).
    rewrite Hdot in Hc. injection Hc as <-.
    apply search_pattern in Hs. eauto.
  - intros (field & s & Hin & Hf & Hs).
    apply search_pattern in Hs. eauto 8.
Qed.

Lemma literal_is_dot_pattern (q : option string) :
  literal_pattern q = true -> dot_pattern q = true.
Proof.
  destruct q as [s |]; [| done]. simpl.
  induction (chars s) as [| c l IH]; [done |]. simpl.
  rewrite !andb_true_iff. intros [[Hascii Hmeta] Hl].
  rewrite Hascii, Hmeta, orb_true_r. auto.
Qed.

Lemma given_some (q : option string) (a : string) :
  given q = Some a -> q = Some a.
Proof. by destruct q as [[] |]. Qed.

(** On a Plant record, for a pattern of characters and dots, the query dict
    answers, and answers what [code_matches] says. *)
Lemma build_filter_decides
  (q light water care_level : option string) (pet_friendly : option bool)
  (size tag : option string) (d : pydict) :
  plant_record d = true ->
  dot_pattern q = true ->
  decides (filter_matches
             (build_filter q light water care_level pet_friendly size tag) d)
          (code_matches q light water care_level pet_friendly size tag d).
Proof.
  intros Hrec Hpat.
  unfold plant_record in Hrec. rewrite !andb_true_iff in Hrec.
  destruct Hrec as (((((((((_ & Hn) & Hsci) & Hdesc) & Hl) & Hw) & Hc) & Hp)
                       & Hs) & Ht).
  rewrite build_filter_steps.
  apply (decides_iff _
           (supplied (given tag) (fun t => has_tag t d)
            /\ supplied (given size) (fun x => d !! "size" = Some (VStr x))
            /\ supplied pet_friendly
                        (fun b => d !! "pet_friendly" = Some (VBool b))
            /\ supplied (given care_level)
                        (fun x => d !! "care_level" = Some (VStr x))
            /\ supplied (given water) (fun x => d !! "water" = Some (VStr x))
            /\ supplied (given light) (fun x => d !! "light" = Some (VStr x))
            /\ supplied (given q) (fun q => pattern_text q d)
            /\ True)).
  { unfold code_matches, criteria. tauto. }
  repeat (apply decides_add_entry;
          [rewrite ?add_entry_lookup_ne by done; apply lookup_empty
          | intros a Ha |]).
  - by apply decides_in_tag.
  - by apply decides_eq_str.
  - by apply decides_eq_bool.
  - by apply decides_eq_str.
  - by apply decides_eq_str.
  - by apply decides_eq_str.
  - apply given_some in Ha as ->.
    eapply decides_iff; [by apply regex_text_pattern |].
    apply (decides_or_regex a (map item_of (chars a))); try done.
    by apply compile_dot_pattern.
  - exists true. split; [apply filter_matches_empty | tauto].
Qed.



(** * Further properties of the code *)

(** ** The effects of the handlers *)

(** X1: [list_plants] only reads.  It never calls [create_document]; without
    a datastore it calls nothing and leaves the state of any store as it is;
    with a datastore a run is one call of [get_documents], on the collection
    [plant] with the query dict and the limit of the request: its documents
    are returned rendered, in the same order, its failure is answered with
    status 500, and the state is the one that call leaves. *)
Theorem list_plants_reads_only
  (py_str : value -> string) (db : option Database)
  (q light water care_level : option string) (pet_friendly : option bool)
  (size tag : option string) (limit : Z) :
  ~ calls_create_document
      (list_plants py_str db q light water care_level pet_friendly size tag limit)
  /\ ~ calls_get_documents
         (list_plants py_str None q light water care_level pet_friendly size tag
                      limit)
  /\ forall (Store : Type)
            (get_documents :
               string -> querydict -> Z -> Store -> option (list pydict) * Store)
            (create_document :
               string -> pydict -> Store -> option string * Store)
            (st : Store),
       run get_documents create_document
           (list_plants py_str None q light water care_level pet_friendly size
                        tag limit) st
       = (Ok (py_slice_to _seed_plants limit), st)
       /\ forall handle : Database,
            run get_documents create_document
                (list_plants py_str (Some handle) q light water care_level
                             pet_friendly size tag limit) st
            = match get_documents
                      "plant"
                      (build_filter q light water care_level pet_friendly size tag)
                      limit st with
              | (Some docs, st') => (Ok (map (render_doc py_str) docs), st')
              | (None, st') => (Failed 500, st')
              end.
Proof.
  split; [| split].
  - destruct db; simpl; intros H; inversion H as [| ? ? ? ? docs H' |];
      subst; inversion H'.
  - simpl. intros H. inversion H.
  - intros Store get_documents create_document st. split; [reflexivity |].
    intros handle. simpl. by destruct (get_documents _ _ _ _) as [[docs |] st'].
Qed.

Lemma create_plant_calls_no_get (db : option Database) (plant : pydict) :
  ~ calls_get_documents (create_plant db plant).
Proof.
  destruct db; simpl; intros H; inversion H as [| | ? ? ? plant_id H'];
    subst; inversion H'.
Qed.

(** X2: with a datastore, [POST /plants] with a body that passes validation
    is one call of [create_document], on the collection [plant] with the
    validated record; the answer is the dict that holds the identifier the
    store returned under [id], a failure of the store is answered with
    status 500, and the state is the one that call leaves.  The handler
    never calls [get_documents]. *)
Theorem post_plants_with_datastore
  (lax_bool : value -> option bool) (lax_float : value -> option pyfloat)
  (http_url : string -> option string)
  (handle : Database) (body : value) (plant : pydict) :
  model_validate lax_bool lax_float http_url Plant body = inr plant ->
  ~ calls_get_documents
      (post_plants lax_bool lax_float http_url (Some handle) body)
  /\ forall (Store : Type)
            (get_documents :
               string -> querydict -> Z -> Store -> option (list pydict) * Store)
            (create_document :
               string -> pydict -> Store -> option string * Store)
            (st : Store),
       run get_documents create_document
           (post_plants lax_bool lax_float http_url (Some handle) body) st
       = match create_document "plant" plant st with
         | (Some plant_id, st') => (Ok {[ "id" := VStr plant_id ]}, st')
         | (None, st') => (Failed 500, st')
         end.
Proof.
  intros Hvalid. unfold post_plants. rewrite Hvalid. split.
  - apply create_plant_calls_no_get.
  - intros Store get_documents create_document st. simpl.
    by destruct (create_document _ _ _) as [[plant_id |] st'].
Qed.

(** The theorem at the body of a fern, on a store that holds no record. *)
Lemma post_plants_with_datastore_witness :
  run list_get_documents list_create_document
      (post_plants strict_bool strict_float url_as_written
                   (Some {| db_name := "plants" |}) fern_body) []
  = (Ok {[ "id" := VStr "" ]}, [fern_plant]).
Proof.
  assert (Hvalid : model_validate strict_bool strict_float url_as_written
                                  Plant fern_body = inr fern_plant)
    by (vm_cast_no_check (@eq_refl (list ErrorDetail + pydict) (inr fern_plant))).
  destruct (post_plants_with_datastore
              strict_bool strict_float url_as_written
              {| db_name := "plants" |} fern_body fern_plant Hvalid)
    as [_ Hrun].
  rewrite Hrun. reflexivity.
Defined.

(** ** The rendering of a document *)

Lemma str_if_truthy_dom (py_str : value -> string) (key : string) (d : pydict) :
  dom (str_if_truthy py_str key d) = dom d.
Proof.
  unfold str_if_truthy, dict_get.
  destruct (d !! key) as [v |] eqn:Hkey; simpl.
  - destruct (py_truthy v); [| done].
    rewrite dom_insert_L. apply subseteq_union_1_L, singleton_subseteq_l.
    by apply elem_of_dom.
  - done.
Qed.

(** X3: the loop of [list_plants] adds the key [_id] to a document, when it
    has none, and no other key; and it changes the value of no key besides
    [_id], [created_at] and [updated_at]. *)
Theorem render_doc_keeps_the_record (py_str : value -> string) (d : pydict) :
  dom (render_doc py_str d) = {[ "_id" ]} ∪ dom d
  /\ forall key : string,
       key <> "_id" -> key <> "created_at" -> key <> "updated_at" ->
       render_doc py_str d !! key = d !! key.
Proof.
  split.
  - unfold render_doc. rewrite !str_if_truthy_dom. apply dom_insert_L.
  - intros key. apply render_doc_other.
Qed.

Lemma rendered_at_lookup (py_str : value -> string) (key : string)
                         (d d' : pydict) :
  rendered_at py_str key d d' ->
  d' !! key = (fun v => if py_truthy v then VStr (py_str v) else v) <$> d !! key.
Proof. unfold rendered_at. by destruct (d !! key). Qed.

(** X4: when [str] of a string is the string, rendering a document that is
    rendered already changes nothing: a dict that occurs twice in the list
    of documents found, and so goes through the loop twice, ends as if it
    had gone through once. *)
Theorem render_doc_idempotent (py_str : value -> string) (d : pydict) :
  (forall s : string, py_str (VStr s) = s) ->
  render_doc py_str (render_doc py_str d) = render_doc py_str d.
Proof.
  intros Hstr. apply map_eq. intros key.
  destruct (decide (key = "_id")) as [-> | Hid].
  { rewrite !render_doc_id. unfold dict_get at 1.
    rewrite render_doc_id. simpl. by rewrite Hstr. }
  destruct (decide (key = "created_at" \/ key = "updated_at")) as [Hts | Hother].
  - rewrite (rendered_at_lookup py_str key _ _
               (render_doc_timestamp py_str key _ Hts)).
    rewrite (rendered_at_lookup py_str key _ _
               (render_doc_timestamp py_str key d Hts)).
    destruct (d !! key) as [v |]; simpl; [| done].
    destruct (py_truthy v) eqn:Hv; simpl.
    + destruct (negb (String.eqb (py_str v) "")); by rewrite ?Hstr.
    + by rewrite Hv.
  - rewrite !render_doc_other; tauto.
Qed.

(** The theorem at a stored fern. *)
Lemma render_doc_idempotent_witness :
  render_doc example_str (render_doc example_str stored_fern)
  = render_doc example_str stored_fern.
Proof. apply render_doc_idempotent. reflexivity. Defined.

(** ** The query dict, step by step *)


Lemma filter_matches_add_entry {A : Type} (o : option A) key mk
                               (filt : querydict) (d : pydict) :
  filt !! key = None ->
  filter_matches (add_entry o key mk filt) d
  = both (asks o key mk d) (filter_matches filt d).
Proof.
  intros Hfresh. destruct o as [a |]; simpl.
  - by apply filter_matches_insert.
  - by destruct (filter_matches filt d) as [[] |].
Qed.

Lemma filter_matches_build q light water care_level pet_friendly size tag
                           (d : pydict) :
  filter_matches (build_filter q light water care_level pet_friendly size tag) d
  = both (asks (given tag) "tags" (fun t => OnField (CIn [LStr t])) d)
      (both (asks (given size) "size" (fun x => OnField (CEq (LStr x))) d)
         (both (asks pet_friendly "pet_friendly"
                     (fun b => OnField (CEq (LBool b))) d)
            (both (asks (given care_level) "care_level"
                        (fun x => OnField (CEq (LStr x))) d)
               (both (asks (given water) "water"
                           (fun x => OnField (CEq (LStr x))) d)
                  (both (asks (given light) "light"
                              (fun x => OnField (CEq (LStr x))) d)
                     (both (asks (given q) "$or"
                              (fun q => Or [("name", CRegex q "i");
                                            ("scientific_name", CRegex q "i");
                                            ("description", CRegex q "i")]) d)
                           (Some true))))))).
Proof.
  rewrite build_filter_steps.
  repeat (rewrite filter_matches_add_entry
            by (rewrite ?add_entry_lookup_ne by done; apply lookup_empty)).
  by rewrite filter_matches_empty.
Qed.

Lemma dom_add_entry {A : Type} (o : option A) key mk (filt : querydict) :
  dom (add_entry o key mk filt) = key_if o key ∪ dom filt.
Proof.
  destruct o; simpl; [apply dom_insert_L |].
  symmetry. apply (left_id_L ∅ (∪)).
Qed.

(** X5: the query dict of [list_plants] has one key for each criterion that
    is given, [$or] for the free text and [tags] for the tag, and no other
    key; a string criterion is given when it is present and not empty, the
    flag when it is present. *)
Theorem build_filter_keys
  (q light water care_level : option string) (pet_friendly : option bool)
  (size tag : option string) :
  dom (build_filter q light water care_level pet_friendly size tag)
  = key_if (given tag) "tags"
    ∪ (key_if (given size) "size"
       ∪ (key_if pet_friendly "pet_friendly"
          ∪ (key_if (given care_level) "care_level"
             ∪ (key_if (given water) "water"
                ∪ (key_if (given light) "light"
                   ∪ key_if (given q) "$or"))))).
Proof.
  rewrite build_filter_steps, !dom_add_entry, dom_empty_L.
  by rewrite (right_id_L ∅ (∪)).
Qed.





(** ** The case of the free text *)

Lemma all_ascii_complete (c : ascii) : In c all_ascii.
Proof.
  unfold all_ascii. rewrite <- (ascii_nat_embedding c).
  apply in_map, in_seq. pose proof (nat_ascii_bounded c). lia.
Qed.

Lemma letters_checked_true :
  forallb (fun c =>
             forallb (fun c' => implb (same_letter c c') (same_class c c'))
                     all_ascii)
          all_ascii = true.
Proof. vm_compute. reflexivity. Qed.

Lemma same_letter_same_class (c c' : ascii) :
  ascii_lower c = ascii_lower c' -> same_class c c' = true.
Proof.
  intros Hcc.
  pose proof (proj1 (forallb_forall _ _) letters_checked_true
                c (all_ascii_complete c)) as Hc.
  pose proof (proj1 (forallb_forall _ _) Hc c' (all_ascii_complete c')) as Hcc'.
  unfold same_letter in Hcc'. rewrite Hcc, Ascii.eqb_refl in Hcc'. exact Hcc'.
Qed.

Lemma compile_same_letters (p p' : list ascii) :
  lower p = lower p' ->
  match compile_pattern p, compile_pattern p' with
  | Some items, Some items' => Forall2 same_item items items'
  | None, None => True
  | _, _ => False
  end.
Proof.
  revert p'. induction p as [| c p IH]; intros [| c' p'] Hlow;
    try discriminate; [by constructor |].
  injection Hlow as Hc Hp. specialize (IH p' Hp).
  pose proof (same_letter_same_class c c' Hc) as Hclass.
  unfold same_class in Hclass. rewrite !andb_true_iff in Hclass.
  destruct Hclass as [[Hdot Hmeta] Hascii].
  apply Bool.eqb_prop in Hdot, Hmeta, Hascii.
  simpl. rewrite <- Hdot, <- Hmeta, <- Hascii.
  destruct (compile_pattern p) as [items |],
           (compile_pattern p') as [items' |]; try done;
    destruct (Ascii.eqb c "."); simpl; try done;
    destruct (is_meta c || negb (is_ascii c)); simpl; try done;
    by constructor.
Qed.

Lemma match_here_same_items (items items' : list rx_item) (s : list ascii) :
  Forall2 same_item items items' ->
  match_here true items s = match_here true items' s.
Proof.
  intros Hitems. revert s.
  induction Hitems as [| it it' items items' Hit _ IH]; intros s; [done |].
  destruct s as [| c s]; [done |]. simpl. rewrite IH. f_equal.
  destruct it, it'; simpl in *; try done. by rewrite Hit.
Qed.

Lemma search_same_items (items items' : list rx_item) (s : list ascii) :
  Forall2 same_item items items' ->
  search true items s = search true items' s.
Proof.
  intros Hitems. induction s as [| c s IH]; simpl;
    rewrite (match_here_same_items items items') by done; [done |].
  by rewrite IH.
Qed.

Lemma regex_search_same_letters (q q' s : string) :
  lower (chars q) = lower (chars q') ->
  regex_search q "i" s = regex_search q' "i" s.
Proof.
  intros Hlow. apply compile_same_letters in Hlow. unfold regex_search.
  destruct (compile_pattern (chars q)) as [items |],
           (compile_pattern (chars q')) as [items' |]; try done.
  simpl. destruct (ascii_only s); [| done].
  by rewrite (search_same_items items items').
Qed.

Lemma cond_matches_same_letters (q q' : string) (fv : option value) :
  lower (chars q) = lower (chars q') ->
  cond_matches (CRegex q "i") fv = cond_matches (CRegex q' "i") fv.
Proof.
  intros Hlow.
  assert (Helse : compile_pattern (chars q) ≫= (fun _ => Some false)
                  = compile_pattern (chars q') ≫= (fun _ => Some false)).
  { apply compile_same_letters in Hlow.
    by destruct (compile_pattern (chars q)), (compile_pattern (chars q')). }
  destruct fv as [[] |]; simpl; try exact Helse.
  - by apply regex_search_same_letters.
  - induction l as [| v l IH]; [done |]. simpl.
    destruct v; try exact IH.
    by rewrite IH, (regex_search_same_letters q q').
Qed.

Lemma filter_matches_same_letters
  (q q' : string) (light water care_level : option string)
  (pet_friendly : option bool) (size tag : option string) (d : pydict) :
  lower (chars q) = lower (chars q') ->
  filter_matches
    (build_filter (Some q) light water care_level pet_friendly size tag) d
  = filter_matches
      (build_filter (Some q') light water care_level pet_friendly size tag) d.
Proof.
  intros Hlow. rewrite !filter_matches_build. do 6 f_equal.
  destruct q as [| c q], q' as [| c' q']; try discriminate; [done |].
  unfold given, asks, entry_matches.
  change (String.eqb "$or" "$or") with true. cbv iota.
  rewrite !any_alternative_cons.
  by rewrite !(cond_matches_same_letters _ _ _ Hlow).
Qed.

(** X7: the free text is read without regard to case.  For a free text
    that is ASCII text whose only special character is [.], two requests
    that differ only in the case of the letters of [q] build query dicts
    that answer every Plant record of ASCII text, and give it the same
    answer. *)
Theorem free_text_ignores_case
  (q q' : string) (light water care_level : option string)
  (pet_friendly : option bool) (size tag : option string) (d : pydict) :
  dot_pattern (Some q) = true ->
  lower (chars q) = lower (chars q') ->
  plant_record d = true ->
  exists b : bool,
    filter_matches
      (build_filter (Some q) light water care_level pet_friendly size tag) d
    = Some b
    /\ filter_matches
         (build_filter (Some q') light water care_level pet_friendly size tag) d
       = Some b.
Proof.
  intros Hdot Hlow Hrec.
  destruct (build_filter_decides (Some q) light water care_level pet_friendly
              size tag d Hrec Hdot) as (b & Hb & _).
  exists b. split; [exact Hb |].
  by rewrite <- (filter_matches_same_letters q q').
Qed.

(** The theorem at two spellings of one word, on the record of Monstera
    Deliciosa, which both match. *)
Lemma free_text_ignores_case_witness :
  exists b : bool,
    filter_matches
      (build_filter (Some "MONSTERA") None None None None None None) monstera
    = Some b
    /\ filter_matches
         (build_filter (Some "monstera") None None None None None None) monstera
       = Some b.
Proof.
  apply free_text_ignores_case.
  - reflexivity.
  - reflexivity.
  - vm_compute. reflexivity.
Defined.

(** ** Validation against any model *)

Section ModelFacts.

Variable lax_bool : value -> option bool.
Variable lax_float : value -> option pyfloat.
Variable http_url : string -> option string.

Local Abbreviation vtype := (validate_type lax_bool lax_float http_url).
Local Abbreviation vfield := (validate_field lax_bool lax_float http_url).
Local Abbreviation vfields := (validate_fields lax_bool lax_float http_url).
Local Abbreviation vmodel := (model_validate lax_bool lax_float http_url).

Lemma model_validate_accepts (m : ModelClass) (body : value) (inst : pydict) :
  vmodel m body = inr inst <->
  exists data, body = VDict data /\ vfields data (model_fields m) = ([], inst).
Proof.
  unfold model_validate. split.
  - destruct body; try discriminate.
    destruct (vfields d (model_fields m)) as [[| e errs] inst0] eqn:Hall;
      [| discriminate].
    intros [= <-]. by exists d.
  - intros (data & -> & Hall). by rewrite Hall.
Qed.

Lemma model_validate_rejects (m : ModelClass) (data : pydict)
                             (errs : list ErrorDetail) :
  vmodel m (VDict data) = inl errs ->
  errs = (vfields data (model_fields m)).1.
Proof.
  unfold model_validate.
  destruct (vfields data (model_fields m)) as [[| e errs0] inst];
    [discriminate |].
  by intros [= <-].
Qed.


Lemma validate_fields_errors (data : pydict) fields (e : ErrorDetail) :
  e ∈ (vfields data fields).1
  <-> exists name fi es,
        (name, fi) ∈ fields /\ vfield data name fi = inl es /\ e ∈ es.
Proof.
  induction fields as [| [name fi] rest IH].
  - simpl. split;
      [by intros ?%elem_of_nil | by intros (? & ? & ? & ?%elem_of_nil & _)].
  - rewrite validate_fields_step.
    destruct (vfield data name fi) as [es0 | v] eqn:Hhead; simpl.
    + rewrite elem_of_app, IH. split.
      * intros [He | (n & f & es & Hin & Hf & He)].
        -- exists name, fi, es0. split; [apply list_elem_of_here | done].
        -- exists n, f, es. split; [by apply list_elem_of_further | done].
      * intros (n & f & es & Hin & Hf & He).
        apply elem_of_cons in Hin as [[= -> ->] | Hin].
        -- left. congruence.
        -- right. eauto 6.
    + rewrite IH. split.
      * intros (n & f & es & Hin & Hf & He). exists n, f, es.
        split; [by apply list_elem_of_further | done].
      * intros (n & f & es & Hin & Hf & He).
        apply elem_of_cons in Hin as [[= -> ->] | Hin];
          [congruence | eauto 6].
Qed.

Lemma validate_field_reports_missing (data : pydict) name fi es loc :
  vfield data name fi = inl es ->
  (loc, "missing") ∈ es ->
  loc = name /\ default_value fi = None /\ data !! name = None.
Proof.
  unfold validate_field. destruct (data !! name) as [v |].
  - destruct (vtype (ge fi) (annotation fi) v) as [e |] eqn:Hv;
      [| discriminate].
    intros [= <-] (e0 & [= -> <-] & He0)%list_elem_of_fmap.
    by apply validate_type_errors in Hv as [_ Hno].
  - destruct (default_value fi); [discriminate |].
    by intros [= <-] [= ->]%list_elem_of_singleton.
Qed.

Lemma validate_field_absent (data : pydict) name fi :
  default_value fi = None -> data !! name = None ->
  vfield data name fi = inl [(name, "missing")].
Proof. intros Hd Ha. unfold validate_field. by rewrite Ha, Hd. Qed.

End ModelFacts.



(** X9: validation reads the fields of the model only: a key of the body
    that names no field changes neither the record nor the errors. *)
Theorem unknown_key_is_ignored
  (lax_bool : value -> option bool) (lax_float : value -> option pyfloat)
  (http_url : string -> option string)
  (m : ModelClass) (data : pydict) (key : string) (v : value) :
  key ∉ field_names m ->
  model_validate lax_bool lax_float http_url m (VDict (<[key := v]> data))
  = model_validate lax_bool lax_float http_url m (VDict data).
Proof.
  intros Hkey. unfold model_validate.
  by rewrite validate_fields_insert_fresh.
Qed.

(** The theorem at a body that sets [_id]. *)
Lemma unknown_key_is_ignored_witness :
  model_validate strict_bool strict_float url_as_written Plant
                 (VDict (<["_id" := VStr "65f1c0ffee0123456789abcd"]> ∅))
  = model_validate strict_bool strict_float url_as_written Plant (VDict ∅).
Proof.
  apply unknown_key_is_ignored.
  apply (bool_decide_unpack _). vm_compute. reflexivity.
Defined.

(** X10: among the errors of a rejected JSON object, a field is reported
    missing exactly when the model gives it no default and the object has no
    such key; the fields with a default are never reported missing. *)
Theorem missing_is_required_and_absent
  (lax_bool : value -> option bool) (lax_float : value -> option pyfloat)
  (http_url : string -> option string)
  (m : ModelClass) (data : pydict) (errs : list ErrorDetail) (name : string) :
  model_validate lax_bool lax_float http_url m (VDict data) = inl errs ->
  (name, "missing") ∈ errs
  <-> exists fi, (name, fi) ∈ model_fields m
                 /\ default_value fi = None /\ data !! name = None.
Proof.
  intros ->%model_validate_rejects. rewrite validate_fields_errors. split.
  - intros (n & fi & es & Hin & Hf & Hes).
    destruct (validate_field_reports_missing _ _ _ _ _ _ _ _ Hf Hes)
      as (-> & Hd & Ha).
    eauto.
  - intros (fi & Hin & Hd & Ha). exists name, fi, [(name, "missing")].
    split; [done |].
    split; [by apply validate_field_absent | apply list_elem_of_here].
Qed.

(** The theorem at the empty JSON object, for the Plant model. *)
Lemma missing_is_required_and_absent_witness :
  ("water", "missing")
  ∈ [("name", "missing"); ("light", "missing"); ("water", "missing");
     ("care_level", "missing")].
Proof.
  apply (missing_is_required_and_absent
           strict_bool strict_float url_as_written Plant ∅
           [("name", "missing"); ("light", "missing"); ("water", "missing");
            ("care_level", "missing")]
           "water").
  - reflexivity.
  - eexists. split; [plant_field |]. split; reflexivity.
Defined.

(** ** Validating a validated record *)

Section Revalidation.

Variable lax_bool : value -> option bool.
Variable lax_float : value -> option pyfloat.
Variable http_url : string -> option string.

(** A URL that parsing returns is parsed to itself. *)
Hypothesis http_url_stable :
  forall s u, http_url s = Some u -> http_url u = Some u.

Local Abbreviation vtype := (validate_type lax_bool lax_float http_url).
Local Abbreviation vfield := (validate_field lax_bool lax_float http_url).
Local Abbreviation vfields := (validate_fields lax_bool lax_float http_url).

Lemma validate_type_idempotent bound t v v' :
  vtype bound t v = inr v' -> vtype bound t v' = inr v'.
Proof.
  revert bound v v'.
  induction t as [| | | | choices | item IH | inner IH]; intros bound v v'; simpl.
  - destruct v; try discriminate. by intros [= <-].
  - destruct v; try (by intros [= <-]);
      destruct (lax_bool _); try discriminate; by intros [= <-].
  - destruct (as_float lax_float v) as [f |]; [| discriminate].
    destruct (ge_ok bound f) eqn:Hge; [| discriminate].
    intros [= <-]. simpl. by rewrite Hge.
  - destruct v; try discriminate.
    destruct (http_url s) as [u |] eqn:Hs; [| discriminate].
    intros [= <-]. by rewrite (http_url_stable _ _ Hs).
  - destruct v; try discriminate.
    case_bool_decide; [| discriminate]. intros [= <-]. by rewrite bool_decide_true.
  - destruct v; try discriminate. revert v'.
    induction l as [| x l IHl]; intros v'; [by intros [= <-] |].
    destruct (vtype None item x) as [ex | x'] eqn:Hx;
      match goal with
      | |- context [match ?items l with inl _ => _ | inr _ => _ end] =>
          destruct (items l) as [el | r] eqn:Hl
      end; try discriminate.
    destruct r; try discriminate. intros [= <-].
    rewrite (IH _ _ _ Hx). specialize (IHl _ eq_refl). simpl in IHl.
    by rewrite IHl.
  - destruct v; try (intros H; apply IH in H; destruct v'; simpl; done).
    by intros [= <-].
Qed.

Lemma validate_fields_idempotent (data inst : pydict) fields :
  NoDup fields.*1 ->
  Forall (default_is_valid lax_bool lax_float http_url) fields ->
  vfields data fields = ([], inst) ->
  vfields inst fields = ([], inst).
Proof.
  revert inst.
  induction fields as [| [name fi] rest IH]; intros inst Hnd Hdef Hall;
    [by injection Hall as <- |].
  apply NoDup_cons in Hnd as [Hname Hnd].
  apply Forall_cons in Hdef as [Hd Hdef].
  rewrite validate_fields_step in Hall.
  destruct (vfield data name fi) as [e | v] eqn:Hhead.
  { apply validate_field_errors in Hhead. by destruct e. }
  destruct (vfields data rest) as [errs inst0] eqn:Hrest. simpl in Hall.
  injection Hall as -> <-.
  rewrite validate_fields_step, validate_fields_insert_fresh by done.
  rewrite (IH inst0) by done. simpl.
  assert (Hv : vtype (ge fi) (annotation fi) v = inr v).
  { unfold validate_field in Hhead. destruct (data !! name) as [v0 |].
    - destruct (vtype (ge fi) (annotation fi) v0) as [e | v1] eqn:Hv0;
        [discriminate |].
      injection Hhead as <-. by eapply validate_type_idempotent.
    - destruct (default_value fi) as [dv |] eqn:Hdv; [| discriminate].
      injection Hhead as <-. by apply Hd. }
  unfold validate_field. by rewrite lookup_insert_eq, Hv.
Qed.

End Revalidation.

Lemma Plant_defaults_valid
  (lax_bool : value -> option bool) (lax_float : value -> option pyfloat)
  (http_url : string -> option string) :
  Forall (default_is_valid lax_bool lax_float http_url) (model_fields Plant).
Proof.
  repeat (apply Forall_cons; split;
          [intros dv Hdv; simpl in Hdv;
           first [discriminate | by injection Hdv as <-] |]).
  apply Forall_nil_2.
Qed.

(** X11: validation is idempotent on the Plant model.  When the parsing of
    URLs returns URLs that it parses to themselves, a record that validation
    accepted is accepted again, as a body, and gives the same record: the
    defaults it filled in, and the values it converted, are valid as they
    are. *)
Theorem validated_plant_validates_to_itself
  (lax_bool : value -> option bool) (lax_float : value -> option pyfloat)
  (http_url : string -> option string)
  (body : value) (plant : pydict) :
  (forall s u, http_url s = Some u -> http_url u = Some u) ->
  model_validate lax_bool lax_float http_url Plant body = inr plant ->
  model_validate lax_bool lax_float http_url Plant (VDict plant) = inr plant.
Proof.
  intros Hurl (data & -> & Hall)%model_validate_accepts.
  apply model_validate_accepts. exists plant. split; [done |].
  eapply validate_fields_idempotent;
    eauto using Plant_fields_NoDup, Plant_defaults_valid.
Qed.

(** The theorem at the body of a fern. *)
Lemma validated_plant_validates_to_itself_witness :
  model_validate strict_bool strict_float url_as_written Plant (VDict fern_plant)
  = inr fern_plant.
Proof.
  apply (validated_plant_validates_to_itself
           strict_bool strict_float url_as_written fern_body fern_plant).
  - by intros s u [= ->].
  - vm_cast_no_check (@eq_refl (list ErrorDetail + pydict) (inr fern_plant)).
Defined.

(** ** The schema and the validation *)

Lemma field_schema_lookup (name : string) (fi : FieldInfo) (key : string) :
  key <> "title" -> key <> "description" -> key <> "default" ->
  field_schema name fi !! key = type_schema (ge fi) (annotation fi) !! key.
Proof.
  intros Ht Hd Hdef. unfold field_schema.
  rewrite !lookup_insert_ne by done.
  destruct (default_value fi); [by rewrite lookup_insert_ne | done].
Qed.

Lemma model_json_schema_properties (m : ModelClass) :
  model_json_schema m !! "properties"
  = Some (VDict (list_to_map
                   (map (fun f => (f.1, VDict (field_schema f.1 f.2)))
                        (model_fields m)))).
Proof.
  unfold model_json_schema. simpl.
  rewrite !lookup_insert_ne by done. apply lookup_insert_eq.
Qed.

Lemma properties_lookup (m : ModelClass) (name : string) (fi : FieldInfo) :
  NoDup (field_names m) ->
  (name, fi) ∈ model_fields m ->
  (list_to_map (map (fun f => (f.1, VDict (field_schema f.1 f.2)))
                    (model_fields m)) : pydict) !! name
  = Some (VDict (field_schema name fi)).
Proof.
  intros Hnd Hin. apply elem_of_list_to_map_1.
  - unfold field_names in Hnd.
    assert (Hfst : forall l : list (string * FieldInfo),
               (map (fun f => (f.1, VDict (field_schema f.1 f.2))) l).*1 = l.*1).
    { induction l as [| f l IH]; [done |]. simpl. f_equal. exact IH. }
    by rewrite Hfst.
  - apply (list_elem_of_fmap_2
             (fun f : string * FieldInfo => (f.1, VDict (field_schema f.1 f.2)))
             _ (name, fi)).
    done.
Qed.

(** X12: what the schema endpoint shows for an enum field is what
    validation enforces.  For a field of a model that is annotated with a
    [Literal], the property of that name in the JSON schema lists, under
    [enum], the literals of the annotation, and validation accepts for the
    field exactly the values of that list. *)
Theorem schema_enum_is_what_validation_accepts
  (lax_bool : value -> option bool) (lax_float : value -> option pyfloat)
  (http_url : string -> option string)
  (m : ModelClass) (name : string) (fi : FieldInfo) (choices : list string) :
  NoDup (field_names m) ->
  (name, fi) ∈ model_fields m ->
  annotation fi = TLiteral choices ->
  exists properties property enum,
    model_json_schema m !! "properties" = Some (VDict properties)
    /\ properties !! name = Some (VDict property)
    /\ property !! "enum" = Some (VList enum)
    /\ enum = VStr <$> choices
    /\ forall v : value,
         (exists v', validate_type lax_bool lax_float http_url
                                   (ge fi) (annotation fi) v = inr v')
         <-> v ∈ enum.
Proof.
  intros Hnd Hin Hann. eexists _, _, _.
  split; [apply model_json_schema_properties |].
  split; [by apply properties_lookup |].
  split.
  { rewrite field_schema_lookup by done. rewrite Hann. simpl.
    apply lookup_insert_eq. }
  split; [reflexivity |].
  intros v. rewrite Hann, list_elem_of_fmap. split.
  - intros (v' & Hv). pose proof Hv as (s & -> & Hs)%validate_literal.
    simpl in Hv. destruct v; try discriminate.
    case_bool_decide; [| discriminate]. injection Hv as ->. eauto.
  - intros (s & -> & Hs). exists (VStr s). simpl. by rewrite bool_decide_true.
Qed.

(** The theorem at the field [size] of the Plant model. *)
Lemma schema_enum_is_what_validation_accepts_witness :
  exists properties property enum,
    model_json_schema Plant !! "properties" = Some (VDict properties)
    /\ properties !! "size" = Some (VDict property)
    /\ property !! "enum" = Some (VList enum)
    /\ enum = VStr <$> ["small"; "medium"; "large"]
    /\ forall v : value,
         (exists v', validate_type strict_bool strict_float url_as_written
                                   None SizeClass v = inr v')
         <-> v ∈ enum.
Proof.
  apply (schema_enum_is_what_validation_accepts
           strict_bool strict_float url_as_written Plant "size"
           (Field SizeClass (Some (VStr "medium")) None
                  "Typical mature size indoors")).
  - apply Plant_fields_NoDup.
  - plant_field.
  - reflexivity.
Defined.

(** ** The seed records and the schema *)

Lemma validate_with_url
  (lax_bool : value -> option bool) (lax_float : value -> option pyfloat)
  (http_url : string -> option string)
  (data plant0 : pydict) (url : string) :
  model_validate lax_bool lax_float http_url Plant
                 (VDict (<["image_url" := VNone]> data)) = inr plant0 ->
  http_url url = Some url ->
  model_validate lax_bool lax_float http_url Plant
                 (VDict (<["image_url" := VStr url]> data))
  = inr (<["image_url" := VStr url]> plant0).
Proof.
  intros (d & [= <-] & Hall)%model_validate_accepts Hurl.
  apply model_validate_accepts. eexists. split; [reflexivity |].
  rewrite <- (insert_insert_eq data "image_url" (VStr url) VNone).
  eapply validate_fields_insert;
    [apply Plant_fields_NoDup | plant_field | exact Hall |].
  unfold validate_field. rewrite lookup_insert_eq. simpl. by rewrite Hurl.
Qed.

Ltac seed_conforms Hurl :=
  match goal with
  | |- context [VDict ?seed] =>
      let r := eval vm_compute in (seed !! "image_url") in
      match r with
      | Some (VStr ?u) =>
          assert (Hlook : seed !! "image_url" = Some (VStr u))
            by (vm_compute; reflexivity);
          pose proof (Hurl u Hlook) as Hu;
          exists (<["image_url" := VStr u]>
                    (with_defaults Plant (<["image_url" := VNone]> seed)));
          split;
          [ rewrite <- (insert_id seed "image_url" (VStr u) Hlook) at 1;
            apply validate_with_url; [| exact Hu];
            vm_cast_no_check
              (@eq_refl (list ErrorDetail + pydict)
                 (inr (with_defaults Plant (<["image_url" := VNone]> seed))))
          | intros key v Hkey;
            apply elem_of_list_to_map_2 in Hkey;
            repeat (apply elem_of_cons in Hkey as [[= -> ->] | Hkey];
                    [vm_compute; reflexivity |]);
            inversion Hkey ]
      end
  end.

(** X13: the seed records conform to the Plant schema.  Each of them, taken
    as a body, passes validation as soon as the parsing of URLs accepts its
    image URL as it is written; and the record that validation makes of it
    holds every field of the seed record with the same value. *)
Theorem seed_plants_conform
  (lax_bool : value -> option bool) (lax_float : value -> option pyfloat)
  (http_url : string -> option string) (seed : pydict) :
  seed ∈ _seed_plants ->
  (forall s, seed !! "image_url" = Some (VStr s) -> http_url s = Some s) ->
  exists plant,
    model_validate lax_bool lax_float http_url Plant (VDict seed) = inr plant
    /\ forall key v, seed !! key = Some v -> plant !! key = Some v.
Proof.
  intros Hin Hurl. unfold _seed_plants in Hin.
  repeat (apply elem_of_cons in Hin as [-> | Hin]);
    [.. | by apply elem_of_nil in Hin];
    seed_conforms Hurl.
Qed.

(** The theorem at the record of Monstera Deliciosa. *)
Lemma seed_plants_conform_witness :
  exists plant,
    model_validate strict_bool strict_float url_as_written Plant (VDict monstera)
    = inr plant
    /\ forall key v, monstera !! key = Some v -> plant !! key = Some v.
Proof.
  apply seed_plants_conform.
  - apply list_elem_of_here.
  - intros s _. reflexivity.
Defined.

(** ** The Product model *)

Lemma Product_fields_NoDup : NoDup (model_fields Product).*1.
Proof. apply (bool_decide_unpack _). vm_compute. reflexivity. Qed.

Lemma validate_float_not_negative
  (lax_bool : value -> option bool) (lax_float : value -> option pyfloat)
  (http_url : string -> option string) (v v' : value) :
  validate_type lax_bool lax_float http_url (Some 0%Z) TFloat v = inr v' ->
  exists f, v' = VFloat f /\ non_negative f.
Proof.
  simpl. destruct (as_float lax_float v) as [f |]; [| discriminate].
  destruct f; simpl; try discriminate.
  - destruct (Qle_bool (inject_Z 0) q) eqn:Hge; [| discriminate].
    intros [= <-]. eexists. split; [reflexivity |]. by apply Qle_bool_iff in Hge.
  - intros [= <-]. by eexists.
Qed.

(** X14: a record accepted by the validation of the Product model comes
    from a body that gives a title, a price and a category; its title and
    category are strings, its price is a float that is not negative, and its
    stock flag is a bool, true when the body gives none. *)
Theorem validated_product_invariant
  (lax_bool : value -> option bool) (lax_float : value -> option pyfloat)
  (http_url : string -> option string)
  (data product : pydict) :
  model_validate lax_bool lax_float http_url Product (VDict data) = inr product ->
  (is_Some (data !! "title") /\ is_Some (data !! "price")
   /\ is_Some (data !! "category"))
  /\ is_str (product !! "title") = true
  /\ is_str (product !! "category") = true
  /\ (exists f, product !! "price" = Some (VFloat f) /\ non_negative f)
  /\ is_bool (product !! "in_stock") = true
  /\ (data !! "in_stock" = None -> product !! "in_stock" = Some (VBool true)).
Proof.
  intros (d & [= <-] & Hall)%model_validate_accepts.
  assert (Hfield : forall name fi,
             (name, fi) ∈ model_fields Product ->
             exists v, validate_field lax_bool lax_float http_url data name fi
                       = inr v /\ product !! name = Some v).
  { intros name fi Hin.
    destruct (validate_fields_lookup lax_bool lax_float http_url data
                (model_fields Product) name fi Product_fields_NoDup Hin)
      as (v & Hv & Hlook); [by rewrite Hall |].
    rewrite Hall in Hlook. eauto. }
  edestruct (Hfield "title") as (vt & Ht & ->); [plant_field |].
  edestruct (Hfield "price") as (vp & Hp & ->); [plant_field |].
  edestruct (Hfield "category") as (vc & Hc & ->); [plant_field |].
  edestruct (Hfield "in_stock") as (vs & Hs & ->); [plant_field |].
  unfold validate_field in Ht, Hp, Hc, Hs.
  cbn [default_value annotation ge] in Ht, Hp, Hc, Hs.
  destruct (data !! "title") as [t |]; [| discriminate].
  destruct (data !! "price") as [p |]; [| discriminate].
  destruct (data !! "category") as [c |]; [| discriminate].
  split; [by eauto |].
  split; [by destruct t; try discriminate; injection Ht as <- |].
  split; [by destruct c; try discriminate; injection Hc as <- |].
  split.
  { destruct (validate_type _ _ _ _ TFloat p) as [e | v] eqn:Hv;
      [discriminate |].
    injection Hp as <-.
    apply validate_float_not_negative in Hv as (f & -> & Hf). eauto. }
  destruct (data !! "in_stock") as [s |].
  - split; [| discriminate]. simpl in Hs.
    destruct s; try (destruct (lax_bool _); [| discriminate]);
      by injection Hs as <-.
  - injection Hs as <-. by split.
Qed.

(** The theorem at the body of a trowel. *)
Lemma validated_product_invariant_witness :
  exists f, trowel !! "price" = Some (VFloat f) /\ non_negative f.
Proof.
  destruct (validated_product_invariant
              strict_bool strict_float url_as_written trowel_body trowel)
    as (_ & _ & _ & Hprice & _).
  - vm_cast_no_check (@eq_refl (list ErrorDetail + pydict) (inr trowel)).
  - exact Hprice.
Defined.

(** ** The diagnostic endpoint *)

Lemma utf8_take_split (n : nat) (e : string) :
  exists rest,
    e = utf8_take n e +:+ rest
    /\ at_boundary rest = true
    /\ utf8_length (utf8_take n e) = Nat.min n (utf8_length e).
Proof.
  revert n. induction e as [| c e IH]; intros n.
  - exists "". by rewrite Nat.min_0_r.
  - destruct (is_continuation c) eqn:Hc.
    + destruct (IH n) as (rest & Hrest & Hb & Hlen). exists rest.
      cbn [utf8_take utf8_length]. rewrite Hc.
      cbn [String.append utf8_length]. rewrite Hc.
      split; [| done].
      change (String c e = String c (utf8_take n e +:+ rest)).
      by rewrite <- Hrest.
    + destruct n as [| n].
      * exists (String c e). cbn [utf8_take utf8_length at_boundary].
        by rewrite Hc.
      * destruct (IH n) as (rest & Hrest & Hb & Hlen). exists rest.
        cbn [utf8_take utf8_length]. rewrite Hc.
        cbn [String.append utf8_length]. rewrite Hc, Hlen.
        split; [| done].
      change (String c e = String c (utf8_take n e +:+ rest)).
      by rewrite <- Hrest.
Qed.

(** X15: in the answer of [test_database], the fields [database_url] and
    [database_name] say only whether the two variables of the environment
    are set to a text that is not empty: what the handler writes there from
    the handle of the datastore, its name among it, is written over and
    never returned.  The answer always has the same six keys, and [backend]
    always says that the service runs. *)
Theorem test_database_settings_from_environment
  (db : option Database)
  (list_collection_names : Database -> string + list string)
  (env : gmap string string) :
  let response := test_database db list_collection_names env in
  response !! "database_url"
    = Some (VStr (if env_set env "DATABASE_URL" then "✅ Set" else "❌ Not Set"))
  /\ response !! "database_name"
     = Some (VStr (if env_set env "DATABASE_NAME" then "✅ Set" else "❌ Not Set"))
  /\ response !! "backend" = Some (VStr "✅ Running")
  /\ forall key : string,
       is_Some (response !! key)
       <-> key ∈ ["backend"; "database"; "database_url"; "database_name";
                  "connection_status"; "collections"].
Proof.
  unfold test_database. cbv zeta.
  rewrite !list_to_map_cons, list_to_map_nil.
  split; [by rewrite lookup_insert_ne, lookup_insert_eq |].
  split; [by rewrite lookup_insert_eq |].
  split.
  { destruct db as [handle |];
      [destruct (list_collection_names handle) |];
      repeat (rewrite lookup_insert_ne by done); apply lookup_insert_eq. }
  intros key. split.
  - intros Hsome.
    destruct (decide (key ∈ ["backend"; "database"; "database_url";
                             "database_name"; "connection_status";
                             "collections"])) as [| Hnot]; [done |].
    exfalso. rewrite !not_elem_of_cons in Hnot.
    destruct Hnot as (? & ? & ? & ? & ? & ? & _).
    destruct db as [handle |];
      [destruct (list_collection_names handle) |];
      repeat (rewrite lookup_insert_ne in Hsome by done);
      rewrite lookup_empty in Hsome; by destruct Hsome.
  - intros Hin.
    repeat (apply elem_of_cons in Hin as [-> | Hin]);
      [.. | inversion Hin];
      (destruct db as [handle |];
       [destruct (list_collection_names handle) |]);
      repeat first [rewrite lookup_insert_eq
                   | rewrite lookup_insert_ne by done];
      eauto.
Qed.

(** X16: what [test_database] reports of the datastore.  Without a handle
    the connection is reported as not connected, with no collection and the
    text that the database is not initialized.  With a handle it is reported
    as connected; when the collections can be listed, the answer holds the
    first ten of their names, at most, and the text that the database
    works; when listing them fails, the answer holds no collection and the
    text of the failure cut after its first 50 characters: all of it when it
    has no more.  The texts written first, that the database is not
    available or only available, are never returned. *)
Theorem test_database_connection
  (db : option Database)
  (list_collection_names : Database -> string + list string)
  (env : gmap string string) :
  let response := test_database db list_collection_names env in
  match db with
  | None =>
      response !! "connection_status" = Some (VStr "Not Connected")
      /\ response !! "collections" = Some (VList [])
      /\ response !! "database"
         = Some (VStr "⚠️  Available but not initialized")
  | Some handle =>
      response !! "connection_status" = Some (VStr "Connected")
      /\ match list_collection_names handle with
         | inr names =>
             response !! "collections" = Some (VList (VStr <$> take 10 names))
             /\ response !! "database" = Some (VStr "✅ Connected & Working")
         | inl e =>
             response !! "collections" = Some (VList [])
             /\ exists head rest,
                 response !! "database"
                 = Some (VStr ("⚠️  Connected but Error: " +:+ head))
                 /\ e = head +:+ rest
                 /\ at_boundary rest = true
                 /\ utf8_length head = Nat.min 50 (utf8_length e)
         end
  end.
Proof.
  unfold test_database. cbv zeta.
  rewrite !list_to_map_cons, list_to_map_nil.
  destruct db as [handle |].
  - destruct (list_collection_names handle) as [e | names].
    + split; [| split].
      * repeat (rewrite lookup_insert_ne by done). apply lookup_insert_eq.
      * repeat (rewrite lookup_insert_ne by done). apply lookup_insert_eq.
      * destruct (utf8_take_split 50 e) as (rest & Hrest & Hb & Hlen).
        exists (message_head e), rest.
        split; [| by repeat split].
        repeat (rewrite lookup_insert_ne by done). apply lookup_insert_eq.
    + split; [| split].
      * repeat (rewrite lookup_insert_ne by done). apply lookup_insert_eq.
      * repeat (rewrite lookup_insert_ne by done).
        rewrite lookup_insert_eq.
        by rewrite <- (py_slice_to_nat names 10).
      * repeat (rewrite lookup_insert_ne by done). apply lookup_insert_eq.
  - split; [| split];
      repeat (rewrite lookup_insert_ne by done); apply lookup_insert_eq.
Qed.

(** ** The limit of the seed fallback *)

Lemma take_prefix_of_take {A : Type} (l : list A) (n m : nat) :
  (n <= m)%nat -> take n l `prefix_of` take m l.
Proof.
  intros Hnm. exists (drop n (take m l)).
  rewrite <- (take_drop n (take m l)) at 1.
  by rewrite take_take, Nat.min_l.
Qed.

(** X17: a larger limit returns more of the same list.  For two limits of
    the same sign, the seed fallback with the smaller one returns a prefix of
    what it returns with the larger one. *)
Theorem seed_fallback_limit_monotone
  (py_str : value -> string)
  (q light water care_level : option string) (pet_friendly : option bool)
  (size tag : option string) (limit limit' : Z) :
  (0 <= limit <= limit')%Z \/ (limit <= limit' < 0)%Z ->
  exists l l',
    list_plants py_str None q light water care_level pet_friendly size tag limit
      = Return l
    /\ list_plants py_str None q light water care_level pet_friendly size tag
                   limit' = Return l'
    /\ l `prefix_of` l'.
Proof.
  intros Hlimits. eexists _, _. split; [reflexivity |]. split; [reflexivity |].
  unfold py_slice_to.
  destruct Hlimits as [[H0 Hle] | [Hle Hneg]].
  - destruct (Z.ltb_spec limit 0), (Z.ltb_spec limit' 0); try lia.
    apply take_prefix_of_take. lia.
  - destruct (Z.ltb_spec limit 0), (Z.ltb_spec limit' 0); try lia.
    apply take_prefix_of_take. lia.
Qed.

(** The theorem at the limits 2 and 4. *)
Lemma seed_fallback_limit_monotone_witness :
  exists l l',
    list_plants example_str None None None None None None None None 2 = Return l
    /\ list_plants example_str None None None None None None None None 4
       = Return l'
    /\ l `prefix_of` l'.
Proof. apply seed_fallback_limit_monotone. left. lia. Defined.

(** ** The required fields of the schema *)

(** X18: the list [required] of the schema of Plant names exactly the
    fields that validation reports missing in every body that lacks
    them. *)
Theorem required_is_what_validation_misses
  (lax_bool : value -> option bool) (lax_float : value -> option pyfloat)
  (http_url : string -> option string) :
  exists required,
    model_json_schema Plant !! "required" = Some (VList required)
    /\ forall name : string,
         VStr name ∈ required
         <-> forall data : pydict,
               data !! name = None ->
               exists errs,
                 model_validate lax_bool lax_float http_url Plant (VDict data)
                 = inl errs
                 /\ (name, "missing") ∈ errs.
Proof.
  eexists. split.
  { unfold model_json_schema. rewrite !list_to_map_cons.
    rewrite !lookup_insert_ne by done. apply lookup_insert_eq. }
  intros name. rewrite list_elem_of_fmap. split.
  - intros ([n fi] & Heq & [Hreq Hin]%list_elem_of_filter) data Habsent.
    simpl in Heq. injection Heq as Heq. subst n.
    unfold is_required in Hreq. simpl in Hreq.
    destruct (default_value fi) eqn:Hd; [discriminate |].
    assert (Hmiss : validate_field lax_bool lax_float http_url data name fi
                    = inl [(name, "missing")])
      by (by apply validate_field_absent).
    destruct (model_validate_inl lax_bool lax_float http_url data name fi _
                Hin Hmiss) as (errs & _ & Herrs).
    exists errs. split; [done |].
    apply model_validate_rejects in Herrs as ->.
    apply validate_fields_errors. exists name, fi, [(name, "missing")].
    split; [done |]. split; [done | apply list_elem_of_here].
  - intros Hall. destruct (Hall ∅ (lookup_empty _)) as (errs & Herrs & Hin).
    apply model_validate_rejects in Herrs as ->.
    apply validate_fields_errors in Hin as (n & fi & es & Hf & Hes & Hmiss).
    destruct (validate_field_reports_missing _ _ _ _ _ _ _ _ Hes Hmiss)
      as (<- & Hd & _).
    exists (name, fi). split; [done |].
    apply list_elem_of_filter. split; [| done].
    unfold is_required. simpl. by rewrite Hd.
Qed.

(** ** The PlantQuery model *)

(** X19: every field of PlantQuery is optional: validation never reports a
    field of it missing, whatever the JSON object, and the empty object is
    accepted. *)
Theorem plant_query_has_no_required_field
  (lax_bool : value -> option bool) (lax_float : value -> option pyfloat)
  (http_url : string -> option string) :
  (forall (data : pydict) (errs : list ErrorDetail) (name : string),
     model_validate lax_bool lax_float http_url PlantQuery (VDict data)
     = inl errs ->
     (name, "missing") ∉ errs)
  /\ exists query,
       model_validate lax_bool lax_float http_url PlantQuery (VDict ∅)
       = inr query
       /\ forall name, name ∈ field_names PlantQuery ->
                       query !! name = Some VNone.
Proof.
  split.
  - intros data errs name Herrs Hin.
    apply model_validate_rejects in Herrs as ->.
    apply validate_fields_errors in Hin as (n & fi & es & Hf & Hes & Hmiss).
    destruct (validate_field_reports_missing _ _ _ _ _ _ _ _ Hes Hmiss)
      as (_ & Hd & _).
    simpl in Hf.
    repeat (apply elem_of_cons in Hf as [[= -> ->] | Hf]; [discriminate |]).
    inversion Hf.
  - exists (with_defaults PlantQuery ∅). split.
    + vm_cast_no_check
        (@eq_refl (list ErrorDetail + pydict)
                  (inr (with_defaults PlantQuery ∅))).
    + intros name Hname. unfold field_names in Hname. simpl in Hname.
      repeat (apply elem_of_cons in Hname as [-> | Hname];
              [vm_compute; reflexivity |]).
      inversion Hname.
Qed.

(** ** The diagnostic endpoint on an example *)

Example test_database_twelve_collections :
  let response :=
    test_database (Some {| db_name := "plants" |}) twelve_collections url_only in
  response !! "collections"
    = Some (VList (VStr <$> ["a"; "b"; "c"; "d"; "e"; "f"; "g"; "h"; "i"; "j"]))
  /\ response !! "database_url" = Some (VStr "✅ Set")
  /\ response !! "database_name" = Some (VStr "❌ Not Set").
Proof. repeat split; vm_compute; reflexivity. Qed.

(** ** The validation and the diagnostic text on examples *)

(** Each item of a list that fails is reported. *)
Example validate_type_reports_each_item :
  validate_type strict_bool strict_float url_as_written None
                (TOptional (TList TStr))
                (VList [VInt 1; VStr "a"; VBool true; VStr "b"])
  = inl ["string_type"; "string_type"].
Proof. reflexivity. Qed.

(** An integer price is taken as the nearest double, and refused when it
    is beyond the doubles. *)
Example validate_type_integer_price :
  validate_type strict_bool strict_float url_as_written (Some 0%Z)
                (TOptional TFloat) (VInt 9007199254740993)
  = inr (VFloat (Finite (inject_Z 9007199254740992)))
  /\ validate_type strict_bool strict_float url_as_written (Some 0%Z)
                   (TOptional TFloat) (VInt (10 ^ 400))
     = inl ["float_type"].
Proof. split; vm_compute; reflexivity. Qed.

(** The head of an error text is cut between characters: of 51 two-byte
    characters it keeps 50. *)
Example message_head_keeps_whole_characters :
  message_head "ééééééééééééééééééééééééééééééééééééééééééééééééééé"
  = "éééééééééééééééééééééééééééééééééééééééééééééééééé".
Proof. vm_compute. reflexivity. Qed.
